(** * Noon bestsellers dashboard: the category aggregation and filtering pipeline

    A shallow embedding of [dashboard.py]: the loader ([load_data]), the
    region selection, the per-category aggregation ([base_stats],
    [get_top10_sum], [category_stats]), the threshold filter and the sort
    ([filtered_cats_df]), the detail selection ([current_cat], [subset]) and
    the heat normalisation ([progress_val]).

    Conventions of the embedding.
    - A pandas cell is [Null] (None / NaN), a text [Str] or a number [Num].
      Numbers are exact rationals.  pandas holds them as int64 or float64:
      int64 additions wrap around, float64 additions round, and float64 has
      infinities.  The two agree with the exact arithmetic on whole numbers
      whose absolute values add up to less than 2^53 ([sums_exactly]), and a
      statement that depends on the value of a sum or of a number read from
      a text carries that range among its hypotheses.
    - A [DataFrame] is its list of column names and its list of rows; a row
      maps column names to cells.
    - Python exceptions and Streamlit's [st.stop()] are the two ways a
      computation of type [result] fails to deliver a value. *)

From Stdlib Require Import ZArith QArith Qround Qminmax Qabs List Sorted Permutation.
From Stdlib Require Import Lia Lqa String Ascii.
From stdpp Require Import base gmap strings list pretty.

Open Scope string_scope.

(* ================================================================== *)
(** ** Exceptions and script control *)

Inductive exn := KeyError | TypeError | ValueError | ZeroDivisionError.

(** [Stop] is [st.stop()]: the script run ends there, nothing after it is
    executed.  [Raise e] is an uncaught Python exception. *)
Inductive result (A : Type) :=
  | Ok (a : A)
  | Raise (e : exn)
  | Stop.
Arguments Ok {A} a.
Arguments Raise {A} e.
Arguments Stop {A}.

#[global] Instance result_ret : MRet result := fun A a => Ok a.
#[global] Instance result_bind : MBind result := fun A B f m =>
  match m with
  | Ok a => f a
  | Raise e => Raise e
  | Stop => Stop
  end.
#[global] Instance result_fmap : FMap result := fun A B f m =>
  match m with
  | Ok a => Ok (f a)
  | Raise e => Raise e
  | Stop => Stop
  end.

(** Whether a computation delivered a value, and that value ([d] if not). *)
Definition is_Ok {A} (m : result A) : bool :=
  match m with Ok _ => true | _ => false end.

Definition from_Ok {A} (d : A) (m : result A) : A :=
  match m with Ok a => a | _ => d end.

Fixpoint traverse {A B} (f : A -> result B) (l : list A) : result (list B) :=
  match l with
  | [] => Ok []
  | x :: l' => y ← f x; ys ← traverse f l'; Ok (y :: ys)
  end.

(* ================================================================== *)
(** ** Cells *)

Inductive cell :=
  | Null
  | Str (s : string)
  | Num (q : Q).

(** Python's [==] on the values held by cells ([1 == 1.0] holds, a text is
    never equal to a number). *)
Definition cell_eqb (a b : cell) : bool :=
  match a, b with
  | Null, Null => true
  | Str s, Str t => String.eqb s t
  | Num p, Num q => Qeq_bool p q
  | _, _ => false
  end.

Definition notnull (c : cell) : bool :=
  match c with Null => false | _ => true end.

(** Python truthiness, as used by [if current_cat:]. *)
Definition truthy (c : cell) : bool :=
  match c with
  | Null => false
  | Str s => negb (String.eqb s "")
  | Num q => negb (Qeq_bool q 0)
  end.

(** [x in l] on a Python list of cell values. *)
Definition py_in (x : cell) (l : list cell) : bool := existsb (cell_eqb x) l.

(** The order in which [groupby] lists its keys: numbers before texts,
    numbers by value, texts by code point. *)
Definition key_leb (a b : cell) : bool :=
  match a, b with
  | Num p, Num q => Qle_bool p q
  | Num _, _ => true
  | Str _, Num _ => false
  | Str s, Str t => String.leb s t
  | Str _, Null => true
  | Null, Null => true
  | Null, _ => false
  end.

(* ================================================================== *)
(** ** Sorting *)

(** A stable insertion sort; [leb x y] says that [x] may stand before [y]. *)
Fixpoint insert_by {A} (leb : A -> A -> bool) (x : A) (l : list A) : list A :=
  match l with
  | [] => [x]
  | y :: l' => if leb x y then x :: l else y :: insert_by leb x l'
  end.

Fixpoint sort_by {A} (leb : A -> A -> bool) (l : list A) : list A :=
  match l with
  | [] => []
  | x :: l' => insert_by leb x (sort_by leb l')
  end.

(** [sort_values(by=..., ascending=...)] on a numeric key.  The rows come
    out in the order of their keys; among rows with equal keys the order
    here is the one they came in, where pandas' default quicksort promises
    none.  No statement below depends on the order of equal keys. *)
Definition sort_values {A} (by_ : A -> Q) (ascending : bool) (l : list A) : list A :=
  if ascending
  then sort_by (fun x y => Qle_bool (by_ x) (by_ y)) l
  else sort_by (fun x y => Qle_bool (by_ y) (by_ x)) l.

(* ================================================================== *)
(** ** Text cleaning and numeric coercion (lines 43-47) *)

(** The blanks [str.strip()] removes, among the one-byte characters.  The
    blanks of more than one byte (U+00A0 and the like) are not among them:
    what is stated about blanks is stated for the one-byte ones. *)
Definition is_space (c : ascii) : bool :=
  let n := nat_of_ascii c in
  ((9 <=? n) && (n <=? 13) || (28 <=? n) && (n <=? 32))%nat.

(** [.str.replace(',', '')] *)
Fixpoint remove_commas (s : string) : string :=
  match s with
  | EmptyString => EmptyString
  | String c s' =>
      if Ascii.eqb c "," then remove_commas s' else String c (remove_commas s')
  end.

Fixpoint lstrip (s : string) : string :=
  match s with
  | EmptyString => EmptyString
  | String c s' => if is_space c then lstrip s' else s
  end.

Fixpoint rstrip (s : string) : string :=
  match s with
  | EmptyString => EmptyString
  | String c s' =>
      match rstrip s' with
      | EmptyString => if is_space c then EmptyString else String c EmptyString
      | t => String c t
      end
  end.

(** [.str.strip()] *)
Definition strip (s : string) : string := rstrip (lstrip s).

Definition digit (c : ascii) : option Z :=
  let n := Z.of_nat (nat_of_ascii c) in
  if (48 <=? n)%Z && (n <=? 57)%Z then Some (n - 48)%Z else None.

(** Reads the longest run of decimal digits at the head of [s]: the value
    accumulated on top of [acc], the number of digits read on top of [n],
    and what is left of the text. *)
Fixpoint digits (s : string) (acc : Z) (n : nat) : Z * nat * string :=
  match s with
  | EmptyString => (acc, n, s)
  | String c s' =>
      match digit c with
      | Some d => digits s' (10 * acc + d)%Z (S n)
      | None => (acc, n, s)
      end
  end.

(** An unsigned decimal numeral: digits, optionally a point and more digits,
    with at least one digit overall, and nothing after it. *)
Definition unsigned_numeral (s : string) : option Q :=
  let '(i, ni, rest) := digits s 0 0 in
  match rest with
  | EmptyString => if (ni =? 0)%nat then None else Some (i # 1)
  | String c fr =>
      if Ascii.eqb c "."
      then let '(m, nf, rest') := digits fr i 0 in
           match rest' with
           | EmptyString =>
               if (ni + nf =? 0)%nat then None
               else Some (m # Z.to_pos (10 ^ Z.of_nat nf))
           | _ => None
           end
      else None
  end.

(** [pd.to_numeric(..., errors='coerce')] on one text: the number it denotes,
    or [None] for NaN.  The numerals read are the plain decimal ones, with an
    optional sign.  pandas also reads exponents ("1e3") and the spellings of
    infinity, and rounds what it reads to float64: the statements about the
    number read are made for the texts of [plain_text], and name its value
    for the whole numbers up to 2^53 only. *)
Definition to_numeric (s : string) : option Q :=
  match s with
  | String c s' =>
      if Ascii.eqb c "-" then Qopp <$> unsigned_numeral s'
      else if Ascii.eqb c "+" then unsigned_numeral s'
      else unsigned_numeral s
  | EmptyString => None
  end.

(** [.fillna(0)] *)
Definition fillna0 (x : option Q) : Q := default 0%Q x.

Fixpoint frac_digits (fuel : nat) (r d : Z) : string :=
  match fuel with
  | O => ""
  | S fuel' =>
      if (r =? 0)%Z then ""
      else pretty (10 * r / d)%Z ++ frac_digits fuel' ((10 * r) mod d)%Z d
  end.

(** The decimal numeral Python prints for a number. *)
Definition repr_num (q : Q) : string :=
  let n := Qnum (Qred q) in
  let d := Zpos (Qden (Qred q)) in
  if (d =? 1)%Z then pretty n
  else (if (n <? 0)%Z then "-" else "")
       ++ pretty (Z.abs n / d)%Z ++ "." ++ frac_digits 17 (Z.abs n mod d)%Z d.

(** [.astype(str)] on one cell. *)
Definition astype_str (c : cell) : string :=
  match c with
  | Null => "None"
  | Str s => s
  | Num q => repr_num q
  end.

(** Lines 46-47 on one cell. *)
Definition fix_numeric (c : cell) : Q :=
  fillna0 (to_numeric (strip (remove_commas (astype_str c)))).

(* ================================================================== *)
(** ** Data frames *)

Record DataFrame := mkDataFrame {
  columns : list string;
  rows : list (gmap string cell)
}.

(** [pd.DataFrame()] *)
Definition empty_frame : DataFrame := mkDataFrame [] [].

(** [df.empty]: one of the two axes has length zero. *)
Definition empty (df : DataFrame) : bool :=
  match columns df, rows df with
  | [], _ => true
  | _, [] => true
  | _, _ => false
  end.

Definition has_column (col : string) (df : DataFrame) : bool :=
  existsb (String.eqb col) (columns df).

Definition cell_at (col : string) (r : gmap string cell) : cell :=
  default Null (r !! col).

(** [df[col] = ...], the new value of each row computed from that row. *)
Definition set_column (col : string) (f : gmap string cell -> cell)
    (df : DataFrame) : DataFrame :=
  {| columns := if has_column col df then columns df else columns df ++ [col];
     rows := (fun r => <[col := f r]> r) <$> rows df |}.

(** [df[col]]: the cells of a column, [KeyError] without that column. *)
Definition column (col : string) (df : DataFrame) : result (list cell) :=
  if has_column col df then Ok (cell_at col <$> rows df) else Raise KeyError.

(** The number in a cell of a numeric column.  [load_data] leaves only
    numbers in the columns it fixes, which is the case the pipeline runs in;
    any other cell is reported as a [TypeError]. *)
Definition num_at (col : string) (r : gmap string cell) : result Q :=
  match r !! col with
  | Some (Num q) => Ok q
  | Some _ => Raise TypeError
  | None => Raise KeyError
  end.

Definition nums (col : string) (rs : list (gmap string cell)) : result (list Q) :=
  traverse (num_at col) rs.

Definition keyed (col : string) (rs : list (gmap string cell))
    : result (list (Q * gmap string cell)) :=
  traverse (fun r => q ← num_at col r; Ok (q, r)) rs.

Definition Qsum (l : list Q) : Q := fold_right Qplus 0%Q l.

Definition Zsum (l : list Z) : Z := fold_right Z.add 0%Z l.

(** [Series.sum()] of a numeric column, as the exact sum.  It is the sum
    pandas returns when [sums_exactly] holds of the column; beyond that
    range an int64 sum wraps around and a float64 sum is rounded. *)
Definition sum_col (col : string) (rs : list (gmap string cell)) : result Q :=
  Qsum <$> nums col rs.

(** [Series.count()]: the cells that are not null. *)
Definition count_col (col : string) (rs : list (gmap string cell)) : Z :=
  Z.of_nat (length (List.filter (fun r => notnull (cell_at col r)) rs)).

(** [df.sort_values(by=col, ascending=...)] on rows. *)
Definition sort_rows (col : string) (ascending : bool)
    (rs : list (gmap string cell)) : result (list (gmap string cell)) :=
  ks ← keyed col rs; Ok (snd <$> sort_values fst ascending ks).

(** [df.nlargest(n, col)]: the first [n] rows in descending order of [col],
    the first occurrences winning the ties. *)
Definition nlargest (n : nat) (col : string) (rs : list (gmap string cell))
    : result (list (gmap string cell)) :=
  ks ← keyed col rs; Ok (snd <$> firstn n (sort_values fst false ks)).

(** [Series.unique()]: first occurrences, in order of appearance. *)
Fixpoint unique (l : list cell) : list cell :=
  match l with
  | [] => []
  | x :: l' => x :: List.filter (fun y => negb (cell_eqb x y)) (unique l')
  end.

(** [df.groupby(col)]: one group per distinct non-null key, the keys in
    sorted order, each group holding its rows in their original order. *)
Definition group_keys (col : string) (rs : list (gmap string cell)) : list cell :=
  sort_by key_leb (unique (List.filter notnull (cell_at col <$> rs))).

Definition group_of (col : string) (k : cell) (rs : list (gmap string cell))
    : list (gmap string cell) :=
  List.filter (fun r => cell_eqb (cell_at col r) k) rs.

Definition groupby (col : string) (df : DataFrame)
    : result (list (cell * list (gmap string cell))) :=
  if has_column col df
  then Ok ((fun k => (k, group_of col k (rows df))) <$> group_keys col (rows df))
  else Raise KeyError.

(* ================================================================== *)
(** ** 2. Data loading and cleaning (lines 28-54) *)

Definition cols_to_fix : list string :=
  ["销量数字"; "评论数"; "价格"; "评分"; "排名"].

(** One turn of the loop of lines 44-47. *)
Definition fix_column (df : DataFrame) (col : string) : DataFrame :=
  if has_column col df
  then set_column col (fun r => Num (fix_numeric (cell_at col r))) df
  else df.

(** [load_data()], given what [pd.read_parquet(DATA_FILE)] delivered ([None]
    when it raised).  [st.stop()] is a control exception outside the
    [Exception] hierarchy: the [except] clause does not catch it. *)
Definition load_data (read : option DataFrame) : result DataFrame :=
  match read with
  | Some df =>
      df ← (if has_column "类目" df
            then Ok (set_column "Target_Category" (cell_at "类目") df)
            else if has_column "所属类目" df
            then Ok (set_column "Target_Category" (cell_at "所属类目") df)
            else Stop);
      let df := if negb (has_column "国家" df)
                then set_column "国家" (fun _ => Str "阿联酋") df
                else df in
      Ok (fold_left fix_column cols_to_fix df)
  | None => Ok empty_frame
  end.

(** The category column [load_data] resolves: the first of the two accepted
    names that the file has. *)
Inductive category_source (file : DataFrame) : string -> Prop :=
  | source_first :
      has_column "类目" file = true -> category_source file "类目"
  | source_second :
      has_column "类目" file = false -> has_column "所属类目" file = true ->
      category_source file "所属类目".

(** Lines 53-54. *)
Definition df_raw (read : option DataFrame) : result DataFrame :=
  df ← load_data read;
  if empty df then Stop else Ok df.

(* ================================================================== *)
(** ** 3. Country selection (lines 62-84) *)

Definition country_map : list (string * string) :=
  [("UAE", "阿联酋"); ("KSA", "沙特")].

(** [country_map[key]]; the key is [None] when the radio had no option. *)
Definition country_map_get (key : option string) : result string :=
  match key with
  | Some k =>
      match List.find (fun kv => String.eqb (fst kv) k) country_map with
      | Some kv => Ok (snd kv)
      | None => Raise KeyError
      end
  | None => Raise KeyError
  end.

Definition available_countries_cn (df_raw : DataFrame) : result (list cell) :=
  unique <$> column "国家" df_raw.

Definition available_countries_en (available_countries_cn : list cell)
    : list string :=
  fst <$> List.filter (fun kv => py_in (Str (snd kv)) available_countries_cn)
                      country_map.

Fixpoint index_of (x : string) (l : list string) : nat :=
  match l with
  | [] => 0
  | y :: l' => if String.eqb x y then 0 else S (index_of x l')
  end.

Definition default_idx (available_countries_en : list string) : nat :=
  if existsb (String.eqb "UAE") available_countries_en
  then index_of "UAE" available_countries_en
  else 0.

(** [st.radio(options, index)]: the option the user picked if it is one of
    the options offered, the option at [index] otherwise, [None] when there
    is no option at all. *)
Definition radio (options : list string) (index : nat) (picked : option string)
    : option string :=
  match picked with
  | Some p => if existsb (String.eqb p) options then Some p else options !! index
  | None => options !! index
  end.

(** Line 84: the rows of the selected region. *)
Definition region_filter (df_raw : DataFrame) (selected_country_cn : string)
    : DataFrame :=
  {| columns := columns df_raw;
     rows := List.filter
               (fun r => cell_eqb (cell_at "国家" r) (Str selected_country_cn))
               (rows df_raw) |}.

(** Lines 68-84 together. *)
Definition select_region (df_raw : DataFrame) (picked : option string)
    : result DataFrame :=
  cn ← available_countries_cn df_raw;
  let en := available_countries_en cn in
  let selected_country_en := radio en (default_idx en) picked in
  selected_country_cn ← country_map_get selected_country_en;
  Ok (region_filter df_raw selected_country_cn).

(* ================================================================== *)
(** ** 4. Data aggregation (lines 96-106) *)

Record BaseStat := mkBaseStat {
  base_category : cell;
  base_product_count : Z;
  base_total_sales : Q;
  base_total_reviews : Q
}.

(** One row of [category_stats]. *)
Record Summary := mkSummary {
  Target_Category : cell;
  product_count : Z;
  total_sales : Q;
  total_reviews : Q;
  top10_sales : Q
}.

(** Lines 96-100.  The named aggregation checks its columns before it
    looks at any group. *)
Definition base_stats (df : DataFrame) : result (list BaseStat) :=
  gs ← groupby "Target_Category" df;
  if has_column "产品名" df && has_column "销量数字" df && has_column "评论数" df
  then traverse (fun kg =>
         s ← sum_col "销量数字" (snd kg);
         v ← sum_col "评论数" (snd kg);
         Ok (mkBaseStat (fst kg) (count_col "产品名" (snd kg)) s v)) gs
  else Raise KeyError.

(** Lines 102-103. *)
Definition get_top10_sum (group : list (gmap string cell)) : result Q :=
  top ← nlargest 10 "销量数字" group;
  sum_col "销量数字" top.

(** Line 105.  [apply] calls the function once for each group and collects
    one value per group, as a Series that [reset_index(name=...)] turns into
    a frame.  With no group at all [apply] returns an empty DataFrame, whose
    [reset_index] has no argument [name]: a [TypeError]. *)
Definition top10_stats (df : DataFrame) : result (list (cell * Q)) :=
  gs ← groupby "Target_Category" df;
  match gs with
  | [] => Raise TypeError
  | _ => traverse (fun kg => t ← get_top10_sum (snd kg); Ok (fst kg, t)) gs
  end.

(** [pd.merge(left, right, on='Target_Category')]: the inner join, in the
    order of the left keys. *)
Definition merge (left : list BaseStat) (right : list (cell * Q)) : list Summary :=
  flat_map (fun b =>
    (fun kt => mkSummary (base_category b) (base_product_count b)
                 (base_total_sales b) (base_total_reviews b) (snd kt))
    <$> List.filter (fun kt => cell_eqb (base_category b) (fst kt)) right) left.

(** Line 106. *)
Definition category_stats (df : DataFrame) : result (list Summary) :=
  base ← base_stats df;
  top ← top10_stats df;
  Ok (merge base top).

(* ================================================================== *)
(** ** 5. Filters and sorting (lines 113-140) *)

Definition sort_options : list string :=
  ["By Total Sales (Heat)"; "By Total Reviews (Maturity)"].

(** [Series.max()]: NaN ([None]) on an empty series. *)
Definition series_max (xs : list Q) : option Q :=
  match xs with
  | [] => None
  | x :: xs' => Some (fold_left Qmax xs' x)
  end.

(** [int(x)] on a float that is finite or NaN: truncation towards zero,
    [ValueError] on NaN.  (On an infinite float [int] raises
    [OverflowError]; the numbers of the embedding are all finite.) *)
Definition py_int (x : option Q) : result Z :=
  match x with
  | Some q => Ok (Z.quot (Qnum q) (Zpos (Qden q)))
  | None => Raise ValueError
  end.

(** The upper bounds handed to the two sliders (lines 120 and 124). *)
Definition slider_bounds (category_stats : list Summary) : result (Z * Z) :=
  hi_products ← py_int (series_max (inject_Z ∘ product_count <$> category_stats));
  hi_sales ← py_int (series_max (total_sales <$> category_stats));
  Ok (hi_products, hi_sales).

(** The inclusion predicate of lines 129-130. *)
Definition qualifies (min_products min_sales : Z) (s : Summary) : bool :=
  (min_products <=? product_count s)%Z
  && Qle_bool (inject_Z min_sales) (total_sales s).

(** Lines 128-137. *)
Definition filtered_cats_df (category_stats : list Summary)
    (min_products min_sales : Z) (sort_mode : string) : list Summary :=
  let kept := List.filter (qualifies min_products min_sales) category_stats in
  if String.eqb sort_mode "By Total Sales (Heat)"
  then sort_values total_sales false kept
  else sort_values total_reviews false kept.

(** Line 139. *)
Definition valid_categories (filtered_cats_df : list Summary) : list cell :=
  Target_Category <$> filtered_cats_df.

(* ================================================================== *)
(** ** 8. Category details (lines 200-237) *)

(** Lines 200-202. *)
Definition current_cat (selected_category_state : cell)
    (valid_categories : list cell) : cell :=
  if negb (py_in selected_category_state valid_categories)
  then match valid_categories with
       | c :: _ => c
       | [] => Null
       end
  else selected_category_state.

(** Line 205. *)
Definition subset (df : DataFrame) (current_cat : cell)
    : result (list (gmap string cell)) :=
  sort_rows "排名" true
    (List.filter (fun r => cell_eqb (cell_at "Target_Category" r) current_cat)
                 (rows df)).

(** Lines 204-205 and 260-261: the rows handed to the two views, or [None]
    when the warning "No data matches the filters" is shown instead.  What
    the views do with the rows (lines 207-259) is not part of it. *)
Definition details (df : DataFrame) (current_cat : cell)
    : result (option (list (gmap string cell))) :=
  if truthy current_cat then Some <$> subset df current_cat else Ok None.

(** [a / b] on Python integers. *)
Definition true_div (a b : Z) : result Q :=
  if (b =? 0)%Z then Raise ZeroDivisionError
  else Ok (inject_Z a / inject_Z b)%Q.

(** Line 236. *)
Definition progress_val (sales_val max_val : Z) : result Q :=
  if (0 <? max_val)%Z
  then q ← true_div sales_val max_val; Ok (Qmin q 1)
  else Ok 0%Q.

(** Lines 234-236 for one row of the list. *)
Definition heat (df : DataFrame) (row : gmap string cell) : result Q :=
  s ← num_at "销量数字" row;
  sales_val ← py_int (Some s);
  all ← nums "销量数字" (rows df);
  max_val ← py_int (series_max all);
  progress_val sales_val max_val.

(* ================================================================== *)
(** ** The script, top to bottom *)

(** What the widgets and the session hand to one run of the script. *)
Record Inputs := mkInputs {
  picked_country : option string;
  picked_sort : option string;
  min_products : Z;
  min_sales : Z;
  selected_category_state : cell
}.

(** What one run shows. *)
Record View := mkView {
  view_stats : list Summary;
  view_categories : list cell;
  view_current : cell;
  view_subset : option (list (gmap string cell))
}.

Definition dashboard (read : option DataFrame) (inp : Inputs) : result View :=
  raw ← df_raw read;
  df ← select_region raw (picked_country inp);
  stats ← category_stats df;
  _ ← slider_bounds stats;
  let sort_mode := default "" (radio sort_options 0 (picked_sort inp)) in
  let filtered := filtered_cats_df stats (min_products inp) (min_sales inp) sort_mode in
  let valid := valid_categories filtered in
  let cur := current_cat (selected_category_state inp) valid in
  shown ← details df cur;
  Ok (mkView filtered valid cur shown).

(* ================================================================== *)
(** ** The rest of the page (lines 75-89 and 140-166) *)

(** The label the radio of lines 75-80 returns. *)
Definition selected_country_en (df_raw : DataFrame) (picked : option string)
    : result (option string) :=
  cn ← available_countries_cn df_raw;
  let en := available_countries_en cn in
  Ok (radio en (default_idx en) picked).

(** Lines 87-89. *)
Definition currency_symbol (selected_country_en : option string) : string :=
  match selected_country_en with
  | Some label => if String.eqb label "KSA" then "SAR" else "AED"
  | None => "AED"
  end.

(** Line 140: the rows whose category is one of [valid_categories]. *)
Definition df_filtered (df : DataFrame) (valid_categories : list cell) : DataFrame :=
  {| columns := columns df;
     rows := List.filter
               (fun r => py_in (cell_at "Target_Category" r) valid_categories)
               (rows df) |}.

(** Lines 148-151: the four figures at the top of the page. *)
Record Metrics := mkMetrics {
  filtered_cats : nat;
  total_products : nat;
  shown_sales : Q;
  shown_reviews : Q
}.

Definition metrics (df : DataFrame) (filtered_cats_df : list Summary) : Metrics :=
  {| filtered_cats := length (valid_categories filtered_cats_df);
     total_products :=
       length (rows (df_filtered df (valid_categories filtered_cats_df)));
     shown_sales := Qsum (total_sales <$> filtered_cats_df);
     shown_reviews := Qsum (total_reviews <$> filtered_cats_df) |}.

(** [range(0, stop, step)] for a positive [step]. *)
Definition py_range (stop step : nat) : list nat :=
  (fun j => j * step)%nat <$> seq 0 ((stop + step - 1) / step).

(** Line 160. *)
Definition cols_per_row : nat := 5.

(** Line 161: the categories in rows of [cols_per_row] tiles. *)
Definition matrix_rows (valid_categories : list cell) : list (list cell) :=
  (fun i => take cols_per_row (drop i valid_categories))
  <$> py_range (length valid_categories) cols_per_row.

(** Line 166: the first summary of that category; [None] when there is none
    and [.iloc[0]] raises an [IndexError]. *)
Definition cat_data (filtered_cats_df : list Summary) (cat_name : cell)
    : option Summary :=
  head (List.filter (fun s => cell_eqb (Target_Category s) cat_name)
                    filtered_cats_df).

(** [ch in s] for a one-character [ch]. *)
Fixpoint has_char (ch : ascii) (s : string) : bool :=
  match s with
  | EmptyString => false
  | String c s' => Ascii.eqb ch c || has_char ch s'
  end.

(** Lines 217-224, for an image link that is a text: the address handed to
    [st.image], or [None] where "No Image" is written instead.
    [scroll_trigger_id] is 0 until a tile is clicked, and the time of the
    last click in whole seconds from then on. *)
Definition refresh_url (raw_url : string) (scroll_trigger_id : Z) : option string :=
  if negb (String.eqb raw_url "") && String.prefix "http" raw_url
  then let separator := if has_char "?" raw_url then "&" else "?" in
       let refresh_id := if (0 <? scroll_trigger_id)%Z then scroll_trigger_id else 0%Z in
       Some (raw_url ++ separator ++ "v=" ++ pretty refresh_id)
  else None.

(* ================================================================== *)
(** ** Checks on the rows of a frame *)

(** The number in column [col] of the row, if there is one, is not negative. *)
Definition nonneg_at (col : string) (r : gmap string cell) : bool :=
  match num_at col r with
  | Ok q => Qle_bool 0 q
  | _ => true
  end.

(** Some row of the frame has the country [v]. *)
Definition has_country (v : string) (df_raw : DataFrame) : bool :=
  existsb (fun r => cell_eqb (cell_at "国家" r) (Str v)) (rows df_raw).

(** The cell in column [col] of the row is not null. *)
Definition present_at (col : string) (r : gmap string cell) : bool :=
  notnull (cell_at col r).

(** A whole number. *)
Definition whole (q : Q) : bool := (Z.pos (Qden (Qred q)) =? 1)%Z.

(** The figures of column [col] are whole numbers whose absolute values add
    up to less than 2^53.  Every sum of some of them, in whatever order it
    is added up, is then below 2^53 in absolute value at each step: no int64
    addition wraps around and no float64 addition rounds, so the sums pandas
    computes are the exact ones. *)
Definition sums_exactly (col : string) (rs : list (gmap string cell)) : bool :=
  match nums col rs with
  | Ok qs => forallb whole qs && Qle_bool (Qsum (Qabs <$> qs) + 1) (inject_Z (2 ^ 53))
  | _ => false
  end.






(** A text made of digits only: read by [digits] to its end, and left as it
    is by the removal of commas and blanks. *)
Definition digits_only (s : string) (v : Z) : Prop :=
  (forall acc n,
     digits s acc n
     = ((acc * 10 ^ Z.of_nat (String.length s) + v)%Z, (n + String.length s)%nat, ""))
  /\ remove_commas s = s /\ lstrip s = s /\ rstrip s = s
  /\ forall c s', s = String c s' -> exists d, digit c = Some d.

(* ================================================================== *)
(** ** Sample data *)

(** A row of the file, in the file's own column names. *)
Definition product (category country name sales reviews rank : cell)
    : gmap string cell :=
  list_to_map [("类目", category); ("国家", country); ("产品名", name);
               ("销量数字", sales); ("评论数", reviews); ("排名", rank)].

Definition file_columns : list string :=
  ["类目"; "国家"; "产品名"; "销量数字"; "评论数"; "排名"].

(** Two toys sold in the UAE and one in KSA. *)
Definition toys_file : DataFrame :=
  mkDataFrame file_columns
    [product (Str "Toys") (Str "阿联酋") (Str "robot") (Str "100") (Str "7") (Str "2");
     product (Str "Toys") (Str "阿联酋") (Str "kite") (Str "50") (Str "3") (Str "1");
     product (Str "Toys") (Str "沙特") (Str "drum") (Str "999") (Str "1") (Str "1")].

(** What the Aggregator receives when "UAE" is selected on [toys_file]. *)
Definition toys_uae : DataFrame :=
  from_Ok empty_frame
    (df_raw (Some toys_file) ≫= (fun raw => select_region raw (Some "UAE"))).

(** Lines 53-106 in one piece: the summaries of the selected country. *)
Definition aggregated (read : option DataFrame) (picked : option string)
    : result (list Summary) :=
  raw ← df_raw read;
  df ← select_region raw picked;
  category_stats df.

(** Eleven toys: ten sold once, one with five more returns than sales. *)
Definition returns_heavy_file : DataFrame :=
  mkDataFrame file_columns
    (replicate 10 (product (Str "Toys") (Str "阿联酋") (Str "robot")
                           (Str "1") (Str "0") (Str "1"))
     ++ [product (Str "Toys") (Str "阿联酋") (Str "kite")
                 (Str "-5") (Str "0") (Str "2")]).

(** Eleven toys sold once each, none of them with a product name. *)
Definition unnamed_file : DataFrame :=
  mkDataFrame file_columns
    (replicate 11 (product (Str "Toys") (Str "阿联酋") Null
                           (Str "1") (Str "0") (Str "1"))).

(** What the Aggregator receives when "UAE" is selected on [unnamed_file]. *)
Definition unnamed_uae : DataFrame :=
  from_Ok empty_frame
    (df_raw (Some unnamed_file) ≫= (fun raw => select_region raw (Some "UAE"))).

(** The frame [df_raw] of a file that loads. *)
Definition loaded (file : DataFrame) : DataFrame :=
  from_Ok empty_frame (df_raw (Some file)).

(** Ten products of the UAE whose category is the empty text. *)
Definition blank_category_file : DataFrame :=
  mkDataFrame file_columns
    (replicate 10 (product (Str "") (Str "阿联酋") (Str "robot")
                           (Str "100") (Str "7") (Str "1"))).

(** One product of the UAE without a category. *)
Definition uncategorised_file : DataFrame :=
  mkDataFrame file_columns
    [product Null (Str "阿联酋") (Str "robot") (Str "100") (Str "7") (Str "1")].

(** The widgets as they are when the page opens: nothing picked, the two
    sliders at their defaults 10 and 0, no category in the session. *)
Definition untouched : Inputs := mkInputs None None 10 0 Null.

(** The two toys of the UAE as the Detail Selector lists them. *)
Definition toys_by_rank : list (gmap string cell) :=
  from_Ok [] (subset toys_uae (Str "Toys")).

(** A file with neither name of the category column. *)
Definition file_without_category : DataFrame :=
  mkDataFrame ["国家"; "产品名"; "销量数字"]
    [list_to_map [("国家", Str "阿联酋"); ("产品名", Str "robot");
                  ("销量数字", Str "100")]].

(** A file without the country column, its category under the second name. *)
Definition file_without_country : DataFrame :=
  mkDataFrame ["所属类目"; "产品名"; "销量数字"]
    [list_to_map [("所属类目", Str "Toys"); ("产品名", Str "robot");
                  ("销量数字", Str "1,234")]].


(* ================================================================== *)
(** * Properties *)

(** ** The [result] monad *)

Lemma is_Ok_from_Ok {A} (d : A) (m : result A) :
  is_Ok m = true -> m = Ok (from_Ok d m).
Proof. destruct m; [reflexivity | discriminate..]. Qed.

Lemma bind_Ok {A B} (m : result A) (f : A -> result B) (b : B) :
  m ≫= f = Ok b -> exists a, m = Ok a /\ f a = Ok b.
Proof. destruct m as [a| |]; simpl; intros H; [eauto | discriminate..]. Qed.

Lemma fmap_Ok {A B} (m : result A) (f : A -> B) (b : B) :
  f <$> m = Ok b -> exists a, m = Ok a /\ b = f a.
Proof.
  destruct m as [a| |]; simpl; intros H; [|discriminate..].
  exists a. split; [reflexivity | congruence].
Qed.

(** Splits a hypothesis [m ≫= f = Ok b] into its two steps, repeatedly. *)
Ltac inv_bind H :=
  let a := fresh "a" in
  let Ha := fresh "H" a in
  lazymatch type of H with
  | fmap _ _ = Ok _ => apply fmap_Ok in H; destruct H as (a & Ha & H)
  | _ => apply bind_Ok in H; destruct H as (a & Ha & H)
  end.

Lemma traverse_Forall2 {A B} (f : A -> result B) (l : list A) (l' : list B) :
  traverse f l = Ok l' -> Forall2 (fun x y => f x = Ok y) l l'.
Proof.
  revert l'. induction l as [|x l IH]; simpl; intros l' H.
  - injection H as <-. constructor.
  - inv_bind H. inv_bind H. injection H as <-.
    constructor; [assumption | apply IH; assumption].
Qed.

(** ** Equality of cells *)

Lemma cell_eqb_refl (a : cell) : cell_eqb a a = true.
Proof.
  destruct a; simpl; [reflexivity | apply String.eqb_refl | apply Qeq_bool_refl].
Qed.

Lemma cell_eqb_sym (a b : cell) : cell_eqb a b = cell_eqb b a.
Proof.
  destruct a, b; simpl; try reflexivity.
  - apply String.eqb_sym.
  - apply Qeq_bool_comm.
Qed.

Lemma cell_eqb_trans (a b c : cell) :
  cell_eqb a b = true -> cell_eqb b c = true -> cell_eqb a c = true.
Proof.
  destruct a, b, c; simpl; try discriminate; try reflexivity.
  - intros H1%String.eqb_eq H2%String.eqb_eq. subst. apply String.eqb_refl.
  - apply Qeq_bool_trans.
Qed.

Lemma cell_eqb_Str (c : cell) (s : string) :
  cell_eqb c (Str s) = true <-> c = Str s.
Proof.
  split.
  - destruct c; simpl; try discriminate. intros H%String.eqb_eq. congruence.
  - intros ->. apply cell_eqb_refl.
Qed.

(** Equal keys select the same rows. *)
Lemma group_of_eqb (col : string) (k k' : cell) (rs : list (gmap string cell)) :
  cell_eqb k k' = true -> group_of col k rs = group_of col k' rs.
Proof.
  intros Hk. unfold group_of. apply List.filter_ext. intros r.
  destruct (cell_eqb (cell_at col r) k) eqn:E1, (cell_eqb (cell_at col r) k') eqn:E2;
    try reflexivity.
  - rewrite (cell_eqb_trans _ _ _ E1 Hk) in E2. discriminate.
  - rewrite cell_eqb_sym in Hk.
    rewrite (cell_eqb_trans _ _ _ E2 Hk) in E1. discriminate.
Qed.

(** ** The insertion sort *)

Section Sorting.
Context {A : Type} (leb : A -> A -> bool).

Lemma insert_by_perm (x : A) (l : list A) :
  Permutation (insert_by leb x l) (x :: l).
Proof.
  induction l as [|y l IH]; simpl; [reflexivity|].
  destruct (leb x y); [reflexivity|].
  rewrite IH. apply perm_swap.
Qed.

Lemma sort_by_perm (l : list A) : Permutation (sort_by leb l) l.
Proof.
  induction l as [|x l IH]; simpl; [reflexivity|].
  rewrite insert_by_perm. apply perm_skip, IH.
Qed.

Hypothesis leb_total : forall x y, leb x y = false -> leb y x = true.

Lemma insert_by_sorted (x : A) (l : list A) :
  Sorted (fun a b => leb a b = true) l ->
  Sorted (fun a b => leb a b = true) (insert_by leb x l).
Proof.
  induction 1 as [|y l Hs IH Hd]; simpl.
  - repeat constructor.
  - destruct (leb x y) eqn:E.
    + constructor; [constructor; assumption | constructor; assumption].
    + constructor; [assumption|].
      destruct l as [|z l]; simpl.
      * constructor. apply leb_total, E.
      * inversion Hd; subst.
        destruct (leb x z); constructor; [apply leb_total, E | assumption].
Qed.

Lemma sort_by_sorted (l : list A) :
  Sorted (fun a b => leb a b = true) (sort_by leb l).
Proof.
  induction l as [|x l IH]; simpl; [constructor | apply insert_by_sorted, IH].
Qed.
End Sorting.

Lemma sort_values_perm {A} (by_ : A -> Q) (asc : bool) (l : list A) :
  Permutation (sort_values by_ asc l) l.
Proof. unfold sort_values. destruct asc; apply sort_by_perm. Qed.

Lemma Qle_bool_total (x y : Q) : Qle_bool x y = false -> Qle_bool y x = true.
Proof.
  intros H. apply Qle_bool_iff. apply Qlt_le_weak, Qnot_le_lt.
  intros Hle. apply Qle_bool_iff in Hle. congruence.
Qed.

Lemma sort_values_descending {A} (by_ : A -> Q) (l : list A) :
  Sorted (fun a b => by_ b <= by_ a)%Q (sort_values by_ false l).
Proof.
  unfold sort_values.
  eapply Sorted_ind with (P := Sorted (fun a b => by_ b <= by_ a)%Q);
    [constructor | | apply (sort_by_sorted (fun x y => Qle_bool (by_ y) (by_ x)))].
  - intros a l' _ IH Hd. constructor; [exact IH|].
    destruct Hd; constructor. apply Qle_bool_iff. assumption.
  - intros x y. apply Qle_bool_total.
Qed.

Lemma sort_values_ascending {A} (by_ : A -> Q) (l : list A) :
  Sorted (fun a b => by_ a <= by_ b)%Q (sort_values by_ true l).
Proof.
  unfold sort_values.
  eapply Sorted_ind with (P := Sorted (fun a b => by_ a <= by_ b)%Q);
    [constructor | | apply (sort_by_sorted (fun x y => Qle_bool (by_ x) (by_ y)))].
  - intros a l' _ IH Hd. constructor; [exact IH|].
    destruct Hd; constructor. apply Qle_bool_iff. assumption.
  - intros x y. apply Qle_bool_total.
Qed.

(** Adjacent elements of a sorted list, by position. *)
Lemma Sorted_adjacent {A} (R : A -> A -> Prop) (l : list A) :
  Sorted R l ->
  forall (i : nat) (a b : A), l !! i = Some a -> l !! S i = Some b -> R a b.
Proof.
  induction 1 as [|x l Hs IH Hd]; intros i a b Ha Hb; [discriminate|].
  destruct i as [|i]; simpl in *.
  - injection Ha as <-. destruct Hd as [|y l' Hxy]; [discriminate|].
    simpl in Hb. injection Hb as <-. exact Hxy.
  - eapply IH; eassumption.
Qed.

(* ================================================================== *)
(** ** Filters and sorting *)

Lemma filter_perm {A} (p : A -> bool) (l l' : list A) :
  Permutation l l' -> Permutation (List.filter p l) (List.filter p l').
Proof.
  induction 1 as [|x l l' _ IH|x y l|l l' l'' _ IH1 _ IH2]; simpl.
  - reflexivity.
  - destruct (p x); [apply perm_skip|]; exact IH.
  - destruct (p x), (p y); try reflexivity. apply perm_swap.
  - etransitivity; eassumption.
Qed.

Lemma filtered_cats_df_perm (stats : list Summary) (min_products min_sales : Z)
    (sort_mode : string) :
  Permutation (filtered_cats_df stats min_products min_sales sort_mode)
              (List.filter (qualifies min_products min_sales) stats).
Proof.
  unfold filtered_cats_df.
  destruct (String.eqb sort_mode "By Total Sales (Heat)"); apply sort_values_perm.
Qed.

(** C4.  Whatever the summaries, the two thresholds and the sort mode, the
    Filter/Sort Engine returns exactly the summaries with
    [product_count >= min_products] and [total_sales >= min_sales], both
    bounds included: its output is a rearrangement of the qualifying
    summaries, each as often as it occurs in the input, so it is a subset of
    the input, every summary returned qualifies and no qualifying summary is
    left out. *)
Theorem filter_sort_returns_exactly_the_qualifying
    (stats : list Summary) (min_products min_sales : Z) (sort_mode : string) :
  Permutation (filtered_cats_df stats min_products min_sales sort_mode)
              (List.filter (qualifies min_products min_sales) stats)
  /\ forall s : Summary,
       In s (filtered_cats_df stats min_products min_sales sort_mode) <->
       In s stats
       /\ (product_count s >= min_products)%Z
       /\ (total_sales s >= inject_Z min_sales)%Q.
Proof.
  split; [apply filtered_cats_df_perm|].
  intros s. split.
  - intros H.
    apply (Permutation_in _ (filtered_cats_df_perm _ _ _ _)) in H.
    apply List.filter_In in H as [Hin Hq].
    unfold qualifies in Hq. apply andb_prop in Hq as [H1 H2].
    apply Z.leb_le in H1. apply Qle_bool_iff in H2.
    split; [assumption|]. split; [lia | assumption].
  - intros (Hin & H1 & H2).
    apply (Permutation_in _ (Permutation_sym (filtered_cats_df_perm _ _ _ _))).
    apply List.filter_In. split; [assumption|].
    unfold qualifies. apply andb_true_intro. split.
    + apply Z.leb_le. lia.
    + apply Qle_bool_iff. assumption.
Qed.

(** C5.  In the output of the Filter/Sort Engine every element is followed by
    one whose total is not larger: under "By Total Sales (Heat)" the totals
    compared are [total_sales], under "By Total Reviews (Maturity)" they are
    [total_reviews]. *)
Theorem filter_sort_is_descending
    (stats : list Summary) (min_products min_sales : Z) :
  (forall (i : nat) (a b : Summary),
     filtered_cats_df stats min_products min_sales "By Total Sales (Heat)" !! i = Some a ->
     filtered_cats_df stats min_products min_sales "By Total Sales (Heat)" !! S i = Some b ->
     (total_sales a >= total_sales b)%Q)
  /\
  (forall (i : nat) (a b : Summary),
     filtered_cats_df stats min_products min_sales "By Total Reviews (Maturity)" !! i = Some a ->
     filtered_cats_df stats min_products min_sales "By Total Reviews (Maturity)" !! S i = Some b ->
     (total_reviews a >= total_reviews b)%Q).
Proof.
  split; intros i a b Ha Hb.
  - eapply (Sorted_adjacent (fun a b => total_sales b <= total_sales a)%Q);
      [|exact Ha|exact Hb].
    unfold filtered_cats_df. simpl. apply sort_values_descending.
  - eapply (Sorted_adjacent (fun a b => total_reviews b <= total_reviews a)%Q);
      [|exact Ha|exact Hb].
    unfold filtered_cats_df. simpl. apply sort_values_descending.
Qed.

Lemma filter_sort_is_descending_witness :
  (total_sales (mkSummary (Str "Toys") 12 150 4 90)
   >= total_sales (mkSummary (Str "Books") 30 40 9 40))%Q.
Proof.
  destruct (filter_sort_is_descending
              [mkSummary (Str "Books") 30 40 9 40; mkSummary (Str "Toys") 12 150 4 90]
              10 0) as [Hsales _].
  apply (Hsales 0%nat); reflexivity.
Defined.

(* ================================================================== *)
(** ** Heat normalisation *)

Lemma progress_val_Ok (sales_val max_val : Z) :
  exists q : Q, progress_val sales_val max_val = Ok q.
Proof.
  unfold progress_val, true_div.
  destruct (0 <? max_val)%Z eqn:E; [|eauto].
  apply Z.ltb_lt in E.
  destruct (max_val =? 0)%Z eqn:E0; [apply Z.eqb_eq in E0; lia|].
  simpl. eauto.
Qed.

Lemma num_at_no_division (col : string) (r : gmap string cell) :
  num_at col r <> Raise ZeroDivisionError.
Proof. unfold num_at. destruct (r !! col) as [[| |]|]; congruence. Qed.

Lemma nums_no_division (col : string) (rs : list (gmap string cell)) :
  nums col rs <> Raise ZeroDivisionError.
Proof.
  unfold nums. induction rs as [|r rs IH]; cbn; [congruence|].
  pose proof (num_at_no_division col r) as Hr.
  destruct (num_at col r) as [q|e|]; cbn; [|congruence..].
  destruct (traverse (num_at col) rs) as [qs|e|]; cbn; congruence.
Qed.

(** C8.  Against a maximum of zero the normalised heat value is 0, and for
    no sales value and no maximum does the normalisation divide by zero: it
    always delivers a value.  The same holds where the script computes it,
    with the maximum taken from the frame (lines 234-236): for every row
    with a sales figure, when the largest sales figure of the frame
    truncates to 0 (or to less) the heat of the row is 0; and whatever the
    frame and the row, line 236 is never left by a [ZeroDivisionError]. *)
Theorem heat_against_zero_maximum_is_zero (sales_val : Z) :
  progress_val sales_val 0 = Ok 0%Q
  /\ (forall max_val : Z, exists q : Q, progress_val sales_val max_val = Ok q)
  /\ (forall (df : DataFrame) (row : gmap string cell) (s : Q) (all : list Q)
             (max_val : Z),
        num_at "销量数字" row = Ok s ->
        nums "销量数字" (rows df) = Ok all ->
        py_int (series_max all) = Ok max_val ->
        (max_val <= 0)%Z ->
        heat df row = Ok 0%Q)
  /\ (forall (df : DataFrame) (row : gmap string cell),
        heat df row <> Raise ZeroDivisionError).
Proof.
  split; [reflexivity|]. split; [intros; apply progress_val_Ok|]. split.
  { intros df row s all max_val Hs Hall Hmax Hle. unfold heat.
    rewrite Hs. cbn [mbind result_bind py_int]. rewrite Hall.
    cbn [mbind result_bind]. rewrite Hmax. cbn [mbind result_bind].
    unfold progress_val. destruct (0 <? max_val)%Z eqn:E; [|reflexivity].
    apply Z.ltb_lt in E. lia. }
  intros df row. unfold heat.
  pose proof (num_at_no_division "销量数字" row) as Hrow.
  pose proof (nums_no_division "销量数字" (rows df)) as Hall.
  destruct (num_at "销量数字" row) as [s|e|]; cbn; [|congruence..].
  destruct (nums "销量数字" (rows df)) as [all|e|]; cbn; [|congruence..].
  destruct (series_max all) as [m|]; cbn; [|congruence].
  destruct (progress_val_Ok (Qnum s ÷ Z.pos (Qden s))
              (Qnum m ÷ Z.pos (Qden m))) as [q ->].
  congruence.
Qed.

(* ================================================================== *)
(** ** The loader *)

Lemma has_column_set_column (col c : string) (f : gmap string cell -> cell)
    (df : DataFrame) :
  has_column col (set_column c f df) = has_column col df || String.eqb col c.
Proof.
  unfold set_column, has_column at 1. simpl.
  destruct (has_column c df) eqn:E.
  - fold (has_column col df).
    destruct (String.eqb col c) eqn:Ec; [|rewrite orb_false_r; reflexivity].
    apply String.eqb_eq in Ec. subst. rewrite E. reflexivity.
  - rewrite existsb_app. simpl. rewrite orb_false_r. reflexivity.
Qed.

Lemma has_column_fix_column (col c : string) (df : DataFrame) :
  has_column col (fix_column df c) = has_column col df.
Proof.
  unfold fix_column. destruct (has_column c df) eqn:E; [|reflexivity].
  rewrite has_column_set_column.
  destruct (String.eqb col c) eqn:Ec; [|apply orb_false_r].
  apply String.eqb_eq in Ec. subst. rewrite E. reflexivity.
Qed.

(** What one turn of the loop does to a row. *)
Lemma fix_column_rows (df : DataFrame) (c : string) :
  exists g : gmap string cell -> gmap string cell,
    rows (fix_column df c) = g <$> rows df
    /\ (forall col r, col <> c -> g r !! col = r !! col)
    /\ (has_column c df = true ->
        forall r, g r !! c = Some (Num (fix_numeric (cell_at c r))))
    /\ (has_column c df = false -> forall r, g r = r).
Proof.
  unfold fix_column. destruct (has_column c df) eqn:E.
  - exists (fun r => <[c := Num (fix_numeric (cell_at c r))]> r).
    split; [reflexivity|]. split; [|split].
    + intros col r Hne. apply lookup_insert_ne. congruence.
    + intros _ r. apply lookup_insert_eq.
    + discriminate.
  - exists (fun r => r). split; [symmetry; apply list_fmap_id|].
    split; [reflexivity|]. split; [discriminate | reflexivity].
Qed.

(** What the whole loop does to a row: the columns listed and present are
    fixed, every other cell is left as it was. *)
Lemma fold_fix_column_rows (cols : list string) (df : DataFrame) :
  List.NoDup cols ->
  exists g : gmap string cell -> gmap string cell,
    rows (fold_left fix_column cols df) = g <$> rows df
    /\ (forall col r, ~ In col cols -> g r !! col = r !! col)
    /\ (forall col r, In col cols -> has_column col df = true ->
        g r !! col = Some (Num (fix_numeric (cell_at col r))))
    /\ (forall col r, In col cols -> has_column col df = false ->
        g r !! col = r !! col).
Proof.
  revert df. induction cols as [|c cols IH]; intros df Hnd; simpl.
  - exists (fun r => r). split; [symmetry; apply list_fmap_id|].
    repeat split; try reflexivity; intros ? ? [].
  - apply List.NoDup_cons_iff in Hnd as [Hc Hnd].
    destruct (fix_column_rows df c) as (g1 & Hrows1 & Hother1 & Hfix1 & Hid1).
    destruct (IH (fix_column df c) Hnd) as (g2 & Hrows2 & Hout2 & Hfix2 & Hkeep2).
    assert (Hcell : forall col r, col <> c -> cell_at col (g1 r) = cell_at col r).
    { intros col r Hne. unfold cell_at. rewrite Hother1 by exact Hne. reflexivity. }
    exists (g2 ∘ g1). split; [|split; [|split]].
    + rewrite Hrows2, Hrows1. symmetry. apply list_fmap_compose.
    + intros col r Hnot. simpl. rewrite Hout2 by tauto. apply Hother1.
      intros ->. apply Hnot. left. reflexivity.
    + intros col r Hin Hhas. simpl.
      destruct (String.eqb_spec col c) as [->|Hne].
      * rewrite Hout2 by exact Hc. apply Hfix1, Hhas.
      * destruct Hin as [Heq|Hin]; [congruence|].
        rewrite Hfix2, Hcell; try assumption; [reflexivity|].
        rewrite has_column_fix_column. exact Hhas.
    + intros col r Hin Hhas. simpl.
      destruct (String.eqb_spec col c) as [->|Hne].
      * rewrite Hout2 by exact Hc. rewrite (Hid1 Hhas). reflexivity.
      * destruct Hin as [Heq|Hin]; [congruence|].
        rewrite Hkeep2; try assumption; [apply Hother1, Hne|].
        rewrite has_column_fix_column. exact Hhas.
Qed.

Lemma cols_to_fix_NoDup : List.NoDup cols_to_fix.
Proof.
  unfold cols_to_fix.
  repeat (apply List.NoDup_cons;
          [simpl; intros H; repeat destruct H as [H|H];
           first [discriminate | destruct H]|]).
  apply List.NoDup_nil.
Qed.

Lemma cols_to_fix_other (col : string) :
  In col cols_to_fix -> col <> "Target_Category" /\ col <> "国家".
Proof.
  unfold cols_to_fix. simpl. intros Hin.
  repeat destruct Hin as [<-|Hin]; try (split; discriminate). destruct Hin.
Qed.

(** The frame [load_data] returns, row by row. *)
Lemma load_data_rows (file df : DataFrame) :
  load_data (Some file) = Ok df ->
  exists (src : string) (g : gmap string cell -> gmap string cell),
    category_source file src
    /\ rows df = g <$> rows file
    /\ (forall r, g r !! "Target_Category" = Some (cell_at src r))
    /\ (has_column "国家" file = false ->
        forall r, g r !! "国家" = Some (Str "阿联酋"))
    /\ (has_column "国家" file = true -> forall r, g r !! "国家" = r !! "国家")
    /\ (forall col, In col cols_to_fix -> has_column col file = true ->
        forall r, g r !! col = Some (Num (fix_numeric (cell_at col r)))).
Proof.
  unfold load_data. intros H. inv_bind H. injection H as <-.
  assert (Hsrc : exists src, category_source file src
            /\ a = set_column "Target_Category" (cell_at src) file).
  { destruct (has_column "类目" file) eqn:E1.
    - exists "类目". split; [constructor; assumption | congruence].
    - destruct (has_column "所属类目" file) eqn:E2; [|discriminate].
      exists "所属类目". split; [constructor; assumption | congruence]. }
  destruct Hsrc as (src & Hsrc & ->). clear Ha.
  set (d1 := set_column "Target_Category" (cell_at src) file).
  set (g0 := fun r : gmap string cell => <["Target_Category" := cell_at src r]> r).
  assert (Hhas1 : forall col, col <> "Target_Category" ->
            has_column col d1 = has_column col file).
  { intros col Hne. unfold d1. rewrite has_column_set_column.
    destruct (String.eqb_spec col "Target_Category"); [contradiction|].
    apply orb_false_r. }
  rewrite (Hhas1 "国家") by discriminate.
  set (d2 := if negb (has_column "国家" file)
             then set_column "国家" (fun _ => Str "阿联酋") d1 else d1).
  assert (Hd2 : exists g2 : gmap string cell -> gmap string cell,
            rows d2 = g2 <$> rows d1
            /\ (forall col r, col <> "国家" -> g2 r !! col = r !! col)
            /\ (has_column "国家" file = false ->
                forall r, g2 r !! "国家" = Some (Str "阿联酋"))
            /\ (has_column "国家" file = true -> forall r, g2 r = r)
            /\ forall col, has_column col d1 = true -> has_column col d2 = true).
  { unfold d2. destruct (has_column "国家" file) eqn:E; simpl.
    - exists (fun r => r). split; [symmetry; apply list_fmap_id|].
      repeat split; try reflexivity; try discriminate. auto.
    - exists (fun r => <["国家" := Str "阿联酋"]> r). split; [reflexivity|].
      split; [|split; [|split]].
      + intros col r Hne. apply lookup_insert_ne. congruence.
      + intros _ r. apply lookup_insert_eq.
      + discriminate.
      + intros col Hcol. rewrite has_column_set_column, Hcol. reflexivity. }
  destruct Hd2 as (g2 & Hrows2 & Hother2 & Hdefault2 & Hid2 & Hhas2).
  destruct (fold_fix_column_rows cols_to_fix d2 cols_to_fix_NoDup)
    as (g3 & Hrows3 & Hout3 & Hfix3 & _).
  assert (Hnot : forall c, c = "Target_Category" \/ c = "国家" ->
            ~ In c cols_to_fix).
  { intros c Hc Hin. destruct (cols_to_fix_other c Hin). destruct Hc; contradiction. }
  exists src, (g3 ∘ g2 ∘ g0). split; [exact Hsrc|]. split; [|split; [|split; [|split]]].
  - etransitivity; [exact Hrows3|]. rewrite Hrows2. unfold d1, set_column. simpl.
    rewrite <- !list_fmap_compose. reflexivity.
  - intros r. simpl. rewrite Hout3 by (apply Hnot; auto).
    rewrite Hother2 by discriminate. apply lookup_insert_eq.
  - intros Hno r. simpl. rewrite Hout3 by (apply Hnot; auto).
    apply Hdefault2, Hno.
  - intros Hyes r. simpl. rewrite Hout3 by (apply Hnot; auto).
    rewrite (Hid2 Hyes). apply lookup_insert_ne. discriminate.
  - intros col Hin Hhas r. simpl.
    destruct (cols_to_fix_other col Hin) as [HneT HneC].
    rewrite Hfix3; [|exact Hin|].
    + unfold cell_at. rewrite Hother2 by exact HneC. unfold g0.
      rewrite lookup_insert_ne by congruence. reflexivity.
    + apply Hhas2. rewrite Hhas1 by exact HneT. exact Hhas.
Qed.

Lemma category_source_find (file : DataFrame) (src : string) :
  List.find (fun name => has_column name file) ["类目"; "所属类目"] = Some src
  <-> category_source file src.
Proof.
  simpl. split.
  - destruct (has_column "类目" file) eqn:E1.
    + intros [= <-]. constructor. exact E1.
    + destruct (has_column "所属类目" file) eqn:E2; [|discriminate].
      intros [= <-]. constructor; assumption.
  - intros [H1|H1 H2]; rewrite H1; [reflexivity|]. rewrite H2. reflexivity.
Qed.

Lemma load_data_resolves (file : DataFrame) (src : string) :
  category_source file src -> exists df, load_data (Some file) = Ok df.
Proof.
  unfold load_data. intros [H1|H1 H2]; rewrite H1; [|rewrite H2]; cbn; eauto.
Qed.

(** C7.  The category column is looked up under the names "类目" and
    "所属类目", in this order.  When the file has neither, [load_data] stops
    the script ([st.error] then [st.stop()]) and the whole run stops with
    it, whatever the widgets hold.  When it has one, the first name found
    supplies [Target_Category] and the load succeeds; if the file then has no
    country column the load still succeeds, and every row gets the country
    "阿联酋". *)
Theorem category_column_required_country_defaulted (file : DataFrame) :
  (List.find (fun name => has_column name file) ["类目"; "所属类目"] = None ->
   load_data (Some file) = Stop
   /\ forall inp : Inputs, dashboard (Some file) inp = Stop)
  /\
  (forall src : string,
     List.find (fun name => has_column name file) ["类目"; "所属类目"] = Some src ->
     exists df : DataFrame,
       load_data (Some file) = Ok df
       /\ Forall2 (fun r0 r => r !! "Target_Category" = Some (cell_at src r0))
                  (rows file) (rows df)
       /\ (has_column "国家" file = false ->
           Forall (fun r => r !! "国家" = Some (Str "阿联酋")) (rows df))).
Proof.
  split.
  - simpl. intros Hnone.
    assert (Hstop : load_data (Some file) = Stop).
    { unfold load_data.
      destruct (has_column "类目" file); [discriminate|].
      destruct (has_column "所属类目" file); [discriminate|]. reflexivity. }
    split; [exact Hstop|].
    intros inp. unfold dashboard, df_raw. rewrite Hstop. reflexivity.
  - intros src Hsrc. apply category_source_find in Hsrc.
    destruct (load_data_resolves file src Hsrc) as [df Hdf].
    exists df. split; [exact Hdf|].
    destruct (load_data_rows file df Hdf)
      as (src' & g & Hsrc' & Hrows & Htarget & Hdefault & _).
    assert (src' = src) as ->.
    { destruct Hsrc as [H1|H1 H2], Hsrc' as [H1'|H1' H2']; congruence. }
    rewrite Hrows. split.
    + apply Forall2_fmap_r, Forall2_same_length_lookup.
      split; [reflexivity|]. intros i r0 r Hr0 Hr. rewrite Hr0 in Hr.
      injection Hr as <-. apply Htarget.
    + intros Hno. apply Forall_fmap, Forall_forall. intros r _. simpl.
      apply Hdefault, Hno.
Qed.

Lemma category_column_required_country_defaulted_witness :
  (load_data (Some file_without_category) = Stop
   /\ forall inp : Inputs, dashboard (Some file_without_category) inp = Stop)
  /\
  exists df : DataFrame,
    load_data (Some file_without_country) = Ok df
    /\ Forall2 (fun r0 r => r !! "Target_Category" = Some (cell_at "所属类目" r0))
               (rows file_without_country) (rows df)
    /\ Forall (fun r => r !! "国家" = Some (Str "阿联酋")) (rows df).
Proof.
  split.
  - apply (category_column_required_country_defaulted file_without_category).
    reflexivity.
  - destruct (category_column_required_country_defaulted file_without_country)
      as [_ H].
    destruct (H "所属类目" eq_refl) as (df & Hdf & Htarget & Hcountry).
    exists df. split; [exact Hdf|]. split; [exact Htarget|].
    apply Hcountry. reflexivity.
Defined.

(* ================================================================== *)
(** ** Numeric coercion *)







(* ================================================================== *)
(** ** Rows with their numeric key *)

Lemma keyed_spec (col : string) (rs : list (gmap string cell))
    (ks : list (Q * gmap string cell)) :
  keyed col rs = Ok ks ->
  snd <$> ks = rs /\ Forall (fun kr => num_at col (snd kr) = Ok (fst kr)) ks.
Proof.
  unfold keyed. intros H. apply traverse_Forall2 in H.
  induction H as [|r kr rs ks Hr _ [IH1 IH2]]; [split; constructor|].
  inv_bind Hr. injection Hr as <-. simpl. split; [f_equal; exact IH1|].
  constructor; [exact Ha | exact IH2].
Qed.

Lemma nums_keyed (col : string) (ks : list (Q * gmap string cell)) :
  Forall (fun kr => num_at col (snd kr) = Ok (fst kr)) ks ->
  nums col (snd <$> ks) = Ok (fst <$> ks).
Proof.
  unfold nums. induction 1 as [|kr ks Hkr _ IH]; [reflexivity|].
  cbn. rewrite Hkr. cbn. rewrite IH. reflexivity.
Qed.

Lemma nums_keyed_inv (col : string) (rs : list (gmap string cell)) (qs : list Q) :
  nums col rs = Ok qs -> exists ks, keyed col rs = Ok ks /\ fst <$> ks = qs.
Proof.
  unfold nums, keyed. revert qs. induction rs as [|r rs IH]; intros qs H.
  - injection H as <-. exists []. split; reflexivity.
  - cbn in H. inv_bind H. inv_bind H. injection H as <-.
    destruct (IH _ Ha0) as (ks & Hks & Hfst).
    exists ((a, r) :: ks). cbn. rewrite Ha. cbn. rewrite Hks. cbn.
    split; [reflexivity | f_equal; exact Hfst].
Qed.

Lemma sort_rows_spec (col : string) (asc : bool)
    (rs out : list (gmap string cell)) :
  sort_rows col asc rs = Ok out ->
  exists ks : list (Q * gmap string cell),
    out = snd <$> sort_values fst asc ks
    /\ Permutation out rs
    /\ Forall (fun kr => num_at col (snd kr) = Ok (fst kr)) (sort_values fst asc ks).
Proof.
  unfold sort_rows. intros H. inv_bind H. injection H as <-.
  exists a. apply keyed_spec in Ha as [Hsnd Hkeys].
  split; [reflexivity|]. split.
  - rewrite <- Hsnd. apply fmap_Permutation, sort_values_perm.
  - eapply Permutation_Forall; [|exact Hkeys].
    symmetry. apply sort_values_perm.
Qed.

(* ================================================================== *)
(** ** Country selection *)

Lemma unique_In (x : cell) (l : list cell) : In x (unique l) -> In x l.
Proof.
  revert x. induction l as [|y l IH]; intros x; simpl; [tauto|].
  intros [->|H]; [left; reflexivity|].
  right. apply IH. apply List.filter_In in H. tauto.
Qed.

Lemma unique_cover (x : cell) (l : list cell) :
  In x l -> exists y, In y (unique l) /\ cell_eqb y x = true.
Proof.
  induction l as [|z l IH]; [intros []|].
  intros [->|Hin]; simpl.
  - exists x. split; [left; reflexivity | apply cell_eqb_refl].
  - destruct (IH Hin) as (y & Hy & Hyx).
    destruct (cell_eqb z y) eqn:E.
    + exists z. split; [left; reflexivity|]. eapply cell_eqb_trans; eassumption.
    + exists y. split; [|exact Hyx]. right.
      apply List.filter_In. split; [exact Hy|]. rewrite E. reflexivity.
Qed.

Lemma py_in_true (x : cell) (l : list cell) :
  py_in x l = true <-> exists y, In y l /\ cell_eqb x y = true.
Proof. unfold py_in. apply existsb_exists. Qed.

(** A text is among the distinct values of a column exactly when some row
    holds it. *)
Lemma py_in_unique_column (v col : string) (rs : list (gmap string cell)) :
  py_in (Str v) (unique (cell_at col <$> rs)) = true
  <-> exists r, In r rs /\ cell_at col r = Str v.
Proof.
  rewrite py_in_true. split.
  - intros (y & Hy & Heq). rewrite cell_eqb_sym in Heq.
    apply cell_eqb_Str in Heq as ->. apply unique_In in Hy.
    apply list_elem_of_In, list_elem_of_fmap in Hy as (r & Hr & Hin).
    exists r. split; [apply list_elem_of_In, Hin | congruence].
  - intros (r & Hin & Hr).
    destruct (unique_cover (Str v) (cell_at col <$> rs)) as (y & Hy & Hyv).
    { apply list_elem_of_In, list_elem_of_fmap. exists r.
      split; [congruence | apply list_elem_of_In, Hin]. }
    exists y. split; [exact Hy|]. rewrite cell_eqb_sym. exact Hyv.
Qed.

Lemma available_countries_en_In (cn : list cell) (label : string) :
  In label (available_countries_en cn)
  <-> exists v, In (label, v) country_map /\ py_in (Str v) cn = true.
Proof.
  unfold available_countries_en. rewrite <- list_elem_of_In, list_elem_of_fmap.
  split.
  - intros ([k v] & -> & Hin). apply list_elem_of_In, List.filter_In in Hin.
    exists v. exact Hin.
  - intros (v & Hin & Hv). exists (label, v). split; [reflexivity|].
    apply list_elem_of_In, List.filter_In. split; assumption.
Qed.

Lemma radio_In (options : list string) (index : nat) (picked : option string)
    (label : string) :
  radio options index picked = Some label -> In label options.
Proof.
  unfold radio. intros H.
  assert (Hidx : options !! index = Some label -> In label options).
  { intros Hl. apply list_elem_of_In. eapply list_elem_of_lookup_2, Hl. }
  destruct picked as [p|]; [|auto].
  destruct (existsb (String.eqb p) options) eqn:E; [|auto].
  injection H as <-. apply existsb_exists in E as (x & Hx & Heq).
  apply String.eqb_eq in Heq. congruence.
Qed.

Lemma country_map_get_In (label v v' : string) :
  In (label, v) country_map -> country_map_get (Some label) = Ok v' -> v' = v.
Proof.
  unfold country_map. simpl.
  intros [[= <- <-]|[[= <- <-]|[]]]; vm_compute; congruence.
Qed.

Lemma country_map_values (label v : string) :
  In (label, v) country_map -> v = "阿联酋" \/ v = "沙特".
Proof. simpl. intros [[= _ <-]|[[= _ <-]|[]]]; auto. Qed.

(** What the selection of lines 68-84 delivers. *)
Lemma select_region_spec (raw : DataFrame) (picked : option string) (df : DataFrame) :
  select_region raw picked = Ok df ->
  exists label v : string,
    In label (available_countries_en (unique (cell_at "国家" <$> rows raw)))
    /\ In (label, v) country_map
    /\ (exists r, In r (rows raw) /\ cell_at "国家" r = Str v)
    /\ df = region_filter raw v.
Proof.
  unfold select_region, available_countries_cn, column. intros H.
  destruct (has_column "国家" raw); [|discriminate]. cbn in H.
  inv_bind H. injection H as <-.
  destruct (radio _ _ picked) as [label|] eqn:Eradio; [|discriminate].
  pose proof (radio_In _ _ _ _ Eradio) as Hlabel.
  pose proof Hlabel as Hoffer.
  apply available_countries_en_In in Hlabel as (v & Hmap & Hdata).
  rewrite (country_map_get_In label v a Hmap Ha).
  exists label, v. split; [exact Hoffer|]. split; [exact Hmap|].
  split; [|reflexivity]. apply py_in_unique_column, Hdata.
Qed.

Lemma region_filter_In (raw : DataFrame) (v : string) (r : gmap string cell) :
  In r (rows (region_filter raw v)) <-> In r (rows raw) /\ cell_at "国家" r = Str v.
Proof.
  unfold region_filter. simpl. rewrite List.filter_In, cell_eqb_Str. reflexivity.
Qed.

Lemma details_rows (df : DataFrame) (cur : cell) (rs : list (gmap string cell)) :
  details df cur = Ok (Some rs) ->
  Permutation rs
    (List.filter (fun r => cell_eqb (cell_at "Target_Category" r) cur) (rows df)).
Proof.
  unfold details, subset. destruct (truthy cur); [|discriminate].
  intros H. inv_bind H. injection H as <-.
  apply sort_rows_spec in Ha as (ks & _ & Hperm & _). exact Hperm.
Qed.

(** C10.  A run that gets past the country selection has selected a label of
    [country_map] ("UAE" or "KSA") that was on offer, and a label is on offer
    exactly when it is one of the two keys of the map and its mapped value is
    the country of some loaded row.  The frame handed on holds exactly the
    rows of that country: a row whose country is neither "阿联酋" nor "沙特"
    is in it for no selection, so it is in no group of the Aggregator and
    among no rows of the Detail Selector. *)
Theorem rows_outside_the_country_map_are_never_selected
    (raw : DataFrame) (picked : option string) (df : DataFrame) :
  select_region raw picked = Ok df ->
  (forall label : string,
     In label (available_countries_en (unique (cell_at "国家" <$> rows raw)))
     <-> exists v, In (label, v) country_map
                   /\ exists r, In r (rows raw) /\ cell_at "国家" r = Str v)
  /\ (exists label v : string,
        In label (available_countries_en (unique (cell_at "国家" <$> rows raw)))
        /\ In (label, v) country_map
        /\ forall r, In r (rows df) <-> In r (rows raw) /\ cell_at "国家" r = Str v)
  /\ (forall r : gmap string cell,
        cell_at "国家" r <> Str "阿联酋" -> cell_at "国家" r <> Str "沙特" ->
        ~ In r (rows df)
        /\ (forall k, ~ In r (group_of "Target_Category" k (rows df)))
        /\ (forall cur rs, details df cur = Ok (Some rs) -> ~ In r rs)).
Proof.
  intros Hsel. split; [|split].
  - intros label. rewrite available_countries_en_In.
    split; intros (v & Hmap & Hdata); exists v; (split; [exact Hmap|]);
      apply py_in_unique_column; exact Hdata.
  - destruct (select_region_spec raw picked df Hsel) as (label & v & Hoffer & Hmap & _ & ->).
    exists label, v. split; [exact Hoffer|]. split; [exact Hmap|].
    intros r. apply region_filter_In.
  - intros r Huae Hksa.
    destruct (select_region_spec raw picked df Hsel) as (label & v & _ & Hmap & _ & ->).
    assert (Hout : ~ In r (rows (region_filter raw v))).
    { intros Hin. apply region_filter_In in Hin as [_ Hr].
      destruct (country_map_values label v Hmap) as [->| ->]; contradiction. }
    split; [exact Hout|]. split.
    + intros k Hin. apply Hout. unfold group_of in Hin.
      apply List.filter_In in Hin. tauto.
    + intros cur rs Hrs Hin. apply Hout.
      apply (Permutation_in _ (details_rows _ _ _ Hrs)) in Hin.
      apply List.filter_In in Hin. tauto.
Qed.

Lemma rows_outside_the_country_map_are_never_selected_witness :
  exists label v : string,
    In (label, v) country_map
    /\ forall r : gmap string cell,
         In r (rows (region_filter toys_file "沙特"))
         <-> In r (rows toys_file) /\ cell_at "国家" r = Str v.
Proof.
  destruct (rows_outside_the_country_map_are_never_selected
              toys_file (Some "KSA") (region_filter toys_file "沙特"))
    as (_ & (label & v & _ & Hmap & Hrows) & _).
  - vm_compute. reflexivity.
  - exists label, v. split; assumption.
Defined.

(* ================================================================== *)
(** ** Sums *)

Lemma Qsum_app (l l' : list Q) : (Qsum (l ++ l') == Qsum l + Qsum l')%Q.
Proof.
  induction l as [|x l IH]; simpl; [ring|]. rewrite IH. ring.
Qed.

Lemma Qsum_perm (l l' : list Q) : Permutation l l' -> (Qsum l == Qsum l')%Q.
Proof.
  induction 1 as [|x l l' _ IH|x y l|l l' l'' _ IH1 _ IH2]; simpl.
  - reflexivity.
  - rewrite IH. reflexivity.
  - ring.
  - rewrite IH1. exact IH2.
Qed.

Lemma Qsum_nonneg (l : list Q) : Forall (fun q => 0 <= q)%Q l -> (0 <= Qsum l)%Q.
Proof.
  induction 1 as [|x l Hx _ IH]; simpl; [apply Qle_refl|].
  replace 0%Q with (0 + 0)%Q by reflexivity. apply Qplus_le_compat; assumption.
Qed.

(** The first [n] of non-negative numbers add up to no more than all of them. *)
Lemma Qsum_take_le (n : nat) (l : list Q) :
  Forall (fun q => 0 <= q)%Q l -> (Qsum (take n l) <= Qsum l)%Q.
Proof.
  intros Hl. rewrite <- (take_drop n l) at 2. rewrite Qsum_app.
  assert (Hdrop : (0 <= Qsum (drop n l))%Q).
  { apply Qsum_nonneg. rewrite <- (take_drop n l) in Hl.
    apply Forall_app in Hl. tauto. }
  lra.
Qed.

Lemma Zsum_app (l l' : list Z) : Zsum (l ++ l') = (Zsum l + Zsum l')%Z.
Proof. induction l as [|x l IH]; simpl; [reflexivity|]. rewrite IH. lia. Qed.

(* ================================================================== *)
(** ** The groups of [groupby] *)

Lemma unique_distinct (x : cell) (l : list cell) :
  (length (List.filter (cell_eqb x) (unique l)) <= 1)%nat.
Proof.
  induction l as [|y l IH]; simpl; [lia|].
  assert (Hsub : (length (List.filter (cell_eqb x)
                    (List.filter (fun z => negb (cell_eqb y z)) (unique l)))
                  <= length (List.filter (cell_eqb x) (unique l)))%nat).
  { generalize (unique l). intros u. induction u as [|z u IHu]; simpl; [lia|].
    destruct (cell_eqb y z); simpl; destruct (cell_eqb x z); simpl; lia. }
  destruct (cell_eqb x y) eqn:E; simpl; [|lia].
  assert (Hnone : List.filter (cell_eqb x)
            (List.filter (fun z => negb (cell_eqb y z)) (unique l)) = []).
  { generalize (unique l). intros u. induction u as [|z u IHu]; simpl; [reflexivity|].
    destruct (cell_eqb y z) eqn:Ey; simpl; [exact IHu|].
    destruct (cell_eqb x z) eqn:Ex; [|exact IHu].
    rewrite cell_eqb_sym in E. rewrite (cell_eqb_trans _ _ _ E Ex) in Ey.
    discriminate. }
  rewrite Hnone. simpl. lia.
Qed.

Lemma group_keys_distinct (col : string) (rs : list (gmap string cell)) (x : cell) :
  (length (List.filter (cell_eqb x) (group_keys col rs)) <= 1)%nat.
Proof.
  unfold group_keys.
  rewrite (Permutation_length (filter_perm _ _ _ (sort_by_perm key_leb _))).
  apply unique_distinct.
Qed.

Lemma group_keys_cover (col : string) (rs : list (gmap string cell))
    (r : gmap string cell) :
  In r rs -> cell_at col r <> Null ->
  exists k, In k (group_keys col rs) /\ cell_eqb (cell_at col r) k = true.
Proof.
  intros Hin Hnotnull.
  destruct (unique_cover (cell_at col r)
              (List.filter notnull (cell_at col <$> rs))) as (k & Hk & Heq).
  { apply List.filter_In. split.
    - apply list_elem_of_In, list_elem_of_fmap. exists r.
      split; [reflexivity | apply list_elem_of_In, Hin].
    - destruct (cell_at col r); [contradiction | reflexivity..]. }
  exists k. split.
  - unfold group_keys.
    apply (Permutation_in _ (Permutation_sym (sort_by_perm key_leb _))), Hk.
  - rewrite cell_eqb_sym. exact Heq.
Qed.

(** A key that occurs once among distinct keys is met exactly once. *)
Lemma key_met_once (keys : list cell) (x : cell) :
  (forall y, (length (List.filter (cell_eqb y) keys) <= 1)%nat) ->
  (exists k, In k keys /\ cell_eqb x k = true) ->
  length (List.filter (cell_eqb x) keys) = 1%nat.
Proof.
  intros Hdistinct (k & Hk & Heq).
  assert (Hin : In k (List.filter (cell_eqb x) keys)).
  { apply List.filter_In. split; assumption. }
  specialize (Hdistinct x).
  destruct (List.filter (cell_eqb x) keys); [destruct Hin | simpl in *; lia].
Qed.

(** The groups are a partition of the rows whose key is not null. *)
Lemma groups_partition (col : string) (keys : list cell)
    (rs : list (gmap string cell)) :
  (forall y, (length (List.filter (cell_eqb y) keys) <= 1)%nat) ->
  (forall r, In r rs -> exists k, In k keys /\ cell_eqb (cell_at col r) k = true) ->
  Zsum ((fun k => Z.of_nat (length (group_of col k rs))) <$> keys)
  = Z.of_nat (length rs).
Proof.
  intros Hdistinct. induction rs as [|r rs IH]; intros Hcover.
  - clear. induction keys as [|k keys IH]; [reflexivity|].
    cbn [fmap list_fmap]. unfold Zsum in *. simpl in *. exact IH.
  - assert (Hstep : forall ks,
              Zsum ((fun k => Z.of_nat (length (group_of col k (r :: rs)))) <$> ks)
              = (Z.of_nat (length (List.filter (cell_eqb (cell_at col r)) ks))
                 + Zsum ((fun k => Z.of_nat (length (group_of col k rs))) <$> ks))%Z).
    { induction ks as [|k ks IHks]; [reflexivity|].
      cbn [fmap list_fmap Zsum fold_right]. fold (Zsum) in *.
      change (fold_right Z.add 0%Z) with Zsum. rewrite IHks.
      unfold group_of at 1. simpl.
      fold (group_of col k rs).
      destruct (cell_eqb (cell_at col r) k); simpl length; lia. }
    rewrite Hstep, IH.
    + rewrite (key_met_once keys (cell_at col r) Hdistinct).
      * simpl length. lia.
      * apply Hcover. left. reflexivity.
    + intros r' Hr'. apply Hcover. right. exact Hr'.
Qed.

(* ================================================================== *)
(** ** The Aggregator *)

Lemma groupby_spec (col : string) (df : DataFrame)
    (gs : list (cell * list (gmap string cell))) :
  groupby col df = Ok gs ->
  gs = (fun k => (k, group_of col k (rows df))) <$> group_keys col (rows df).
Proof.
  unfold groupby. destruct (has_column col df); [|discriminate]. congruence.
Qed.

(** [base_stats], key by key. *)
Lemma base_stats_spec (df : DataFrame) (base : list BaseStat) :
  base_stats df = Ok base ->
  Forall2 (fun k b =>
             base_category b = k
             /\ base_product_count b
                = count_col "产品名" (group_of "Target_Category" k (rows df))
             /\ sum_col "销量数字" (group_of "Target_Category" k (rows df))
                = Ok (base_total_sales b)
             /\ sum_col "评论数" (group_of "Target_Category" k (rows df))
                = Ok (base_total_reviews b))
          (group_keys "Target_Category" (rows df)) base.
Proof.
  unfold base_stats. intros H. inv_bind H. apply groupby_spec in Ha as ->.
  destruct (has_column "产品名" df && has_column "销量数字" df
            && has_column "评论数" df); [|discriminate].
  apply traverse_Forall2 in H. apply Forall2_fmap_l in H.
  eapply Forall2_impl; [exact H|]. clear H.
  intros k b H. cbn in H. inv_bind H. inv_bind H. injection H as <-.
  cbn. auto.
Qed.

(** [top10_stats], key by key. *)
Lemma top10_stats_spec (df : DataFrame) (top : list (cell * Q)) :
  top10_stats df = Ok top ->
  Forall2 (fun k kt =>
             fst kt = k
             /\ get_top10_sum (group_of "Target_Category" k (rows df))
                = Ok (snd kt))
          (group_keys "Target_Category" (rows df)) top.
Proof.
  unfold top10_stats. intros H. inv_bind H. apply groupby_spec in Ha as ->.
  destruct (_ <$> group_keys _ _) as [|kg gs] eqn:E in H; [discriminate|].
  rewrite <- E in H. clear E kg gs.
  apply traverse_Forall2 in H. apply Forall2_fmap_l in H.
  eapply Forall2_impl; [exact H|]. clear H.
  intros k kt H. cbn in H. inv_bind H. injection H as <-. cbn. auto.
Qed.

Lemma merge_In (base : list BaseStat) (top : list (cell * Q)) (s : Summary) :
  In s (merge base top) ->
  exists b kt,
    In b base /\ In kt top /\ cell_eqb (base_category b) (fst kt) = true
    /\ s = mkSummary (base_category b) (base_product_count b)
             (base_total_sales b) (base_total_reviews b) (snd kt).
Proof.
  unfold merge. intros H. apply in_flat_map in H as (b & Hb & H).
  apply list_elem_of_In, list_elem_of_fmap in H as (kt & -> & Hkt).
  apply list_elem_of_In, List.filter_In in Hkt as [Hkt Heq].
  exists b, kt. auto.
Qed.

Lemma Forall2_In_r {A B} (P : A -> B -> Prop) (l : list A) (l' : list B) (y : B) :
  Forall2 P l l' -> In y l' -> exists x, In x l /\ P x y.
Proof.
  induction 1 as [|x y' l l' Hxy _ IH]; [intros []|].
  intros [->|Hin]; [exists x; split; [left; reflexivity | exact Hxy]|].
  destruct (IH Hin) as (x' & Hx' & HP). exists x'. split; [right|]; assumption.
Qed.

(** Every row of [category_stats] is the summary of one group of rows. *)
Lemma category_stats_In (df : DataFrame) (stats : list Summary) (s : Summary) :
  category_stats df = Ok stats -> In s stats ->
  exists k : cell,
    In k (group_keys "Target_Category" (rows df))
    /\ Target_Category s = k
    /\ product_count s = count_col "产品名" (group_of "Target_Category" k (rows df))
    /\ sum_col "销量数字" (group_of "Target_Category" k (rows df)) = Ok (total_sales s)
    /\ sum_col "评论数" (group_of "Target_Category" k (rows df)) = Ok (total_reviews s)
    /\ get_top10_sum (group_of "Target_Category" k (rows df)) = Ok (top10_sales s).
Proof.
  unfold category_stats. intros H Hin. inv_bind H. inv_bind H. injection H as <-.
  apply merge_In in Hin as (b & kt & Hb & Hkt & Heq & ->).
  destruct (Forall2_In_r _ _ _ _ (base_stats_spec _ _ Ha) Hb)
    as (k & Hk & Hcat & Hcount & Hsales & Hreviews).
  destruct (Forall2_In_r _ _ _ _ (top10_stats_spec _ _ Ha0) Hkt)
    as (k' & _ & Hcat' & Htop).
  rewrite Hcat, Hcat' in Heq.
  rewrite <- (group_of_eqb _ _ _ _ Heq) in Htop.
  exists k. simpl. repeat split; assumption.
Qed.

(** The sum of the ten largest against the sum of all, for one group. *)
Lemma top10_against_total (col : string) (g : list (gmap string cell)) (total t : Q) :
  sum_col col g = Ok total ->
  (top ← nlargest 10 col g; sum_col col top) = Ok t ->
  ((forall r q, In r g -> num_at col r = Ok q -> (0 <= q)%Q) -> (t <= total)%Q)
  /\ ((length g <= 10)%nat -> (t == total)%Q).
Proof.
  unfold sum_col, nlargest. intros Htotal Htop.
  inv_bind Htotal. subst total.
  destruct (nums_keyed_inv _ _ _ Ha) as (ks & Hks & <-).
  rewrite Hks in Htop.
  change (Qsum <$> nums col (snd <$> take 10 (sort_values fst false ks)) = Ok t)
    in Htop.
  inv_bind Htop. subst t.
  destruct (keyed_spec _ _ _ Hks) as [Hrows Hkeys].
  assert (Hsorted : Forall (fun kr => num_at col (snd kr) = Ok (fst kr))
                      (sort_values fst false ks)).
  { eapply Permutation_Forall; [|exact Hkeys]. symmetry. apply sort_values_perm. }
  rewrite (nums_keyed col (take 10 (sort_values fst false ks))) in Ha0
    by (apply Forall_take, Hsorted).
  injection Ha0 as <-. rewrite fmap_take.
  assert (Hperm : (Qsum (fst <$> sort_values fst false ks) == Qsum (fst <$> ks))%Q).
  { apply Qsum_perm, fmap_Permutation, sort_values_perm. }
  split.
  - intros Hnonneg. rewrite <- Hperm. apply Qsum_take_le.
    apply Forall_fmap, Forall_forall. intros kr Hkr. simpl.
    apply list_elem_of_In in Hkr.
    apply (Permutation_in _ (sort_values_perm _ _ _)) in Hkr.
    apply (Hnonneg (snd kr)).
    + rewrite <- Hrows. apply list_elem_of_In, list_elem_of_fmap.
      exists kr. split; [reflexivity | apply list_elem_of_In, Hkr].
    + rewrite Forall_forall in Hkeys. apply Hkeys, list_elem_of_In, Hkr.
  - intros Hlen. rewrite take_ge; [exact Hperm|].
    rewrite length_fmap, (Permutation_length (sort_by_perm _ ks)).
    rewrite <- Hrows, length_fmap in Hlen. exact Hlen.
Qed.

Lemma nonneg_at_all (col : string) (rs : list (gmap string cell)) :
  forallb (nonneg_at col) rs = true ->
  forall r q, In r rs -> num_at col r = Ok q -> (0 <= q)%Q.
Proof.
  intros Hall r q Hr Hq. rewrite forallb_forall in Hall.
  specialize (Hall r Hr). unfold nonneg_at in Hall. rewrite Hq in Hall.
  apply Qle_bool_iff, Hall.
Qed.

Lemma present_at_all (col : string) (rs : list (gmap string cell)) :
  forallb (present_at col) rs = true ->
  forall r, In r rs -> cell_at col r <> Null.
Proof.
  intros Hall r Hr Hnull. rewrite forallb_forall in Hall.
  specialize (Hall r Hr). unfold present_at in Hall. rewrite Hnull in Hall.
  discriminate.
Qed.

Lemma count_col_all (col : string) (g : list (gmap string cell)) :
  (forall r, In r g -> cell_at col r <> Null) ->
  count_col col g = Z.of_nat (length g).
Proof.
  intros Hnames. unfold count_col. f_equal. f_equal.
  induction g as [|r g IH]; simpl; [reflexivity|].
  destruct (cell_at col r) eqn:E; simpl.
  - destruct (Hnames r); [left; reflexivity | exact E].
  - f_equal. apply IH. intros r' Hr'. apply Hnames. right. exact Hr'.
  - f_equal. apply IH. intros r' Hr'. apply Hnames. right. exact Hr'.
Qed.

Lemma group_of_In (col : string) (k : cell) (rs : list (gmap string cell))
    (r : gmap string cell) :
  In r (group_of col k rs) -> In r rs.
Proof. unfold group_of. rewrite List.filter_In. tauto. Qed.

(** C1, as the code has it.  The sales of the row set are taken to be whole
    numbers whose absolute values add up to less than 2^53, the range in
    which the sums of pandas are exact: beyond it an int64 sum wraps around
    and a float64 sum is rounded, and neither part holds.  Then, for every
    summary the Aggregator produces: [top10_sales] is at most [total_sales]
    provided no sales figure of the row set is negative, and the two are
    equal when [product_count] is at most 10 provided every row has a
    product name, [product_count] being the number of product names and not
    the number of rows. *)
Theorem top10_sales_within_total_sales
    (df : DataFrame) (stats : list Summary) (s : Summary) :
  category_stats df = Ok stats ->
  In s stats ->
  sums_exactly "销量数字" (rows df) = true ->
  ((forall r q, In r (rows df) -> num_at "销量数字" r = Ok q -> (0 <= q)%Q) ->
   (top10_sales s <= total_sales s)%Q)
  /\ ((forall r, In r (rows df) -> cell_at "产品名" r <> Null) ->
      (product_count s <= 10)%Z ->
      (top10_sales s == total_sales s)%Q).
Proof.
  intros Hstats Hin _.
  destruct (category_stats_In df stats s Hstats Hin)
    as (k & _ & _ & Hcount & Hsales & _ & Htop).
  destruct (top10_against_total _ _ _ _ Hsales Htop) as [Hle Heq].
  split.
  - intros Hnonneg. apply Hle. intros r q Hr. apply Hnonneg.
    eapply group_of_In, Hr.
  - intros Hnames Hten. apply Heq.
    rewrite Hcount, count_col_all in Hten; [lia|].
    intros r Hr. apply Hnames. eapply group_of_In, Hr.
Qed.

Lemma top10_sales_within_total_sales_witness :
  exists s : Summary,
    category_stats toys_uae = Ok [s]
    /\ (top10_sales s <= total_sales s)%Q
    /\ (top10_sales s == total_sales s)%Q.
Proof.
  exists (mkSummary (Str "Toys") 2 150 10 150).
  assert (Hstats : category_stats toys_uae = Ok [mkSummary (Str "Toys") 2 150 10 150]).
  { vm_compute. reflexivity. }
  split; [exact Hstats|].
  destruct (top10_sales_within_total_sales toys_uae _ _ Hstats (or_introl eq_refl))
    as [Hle Heq]; [vm_compute; reflexivity|].
  split.
  - apply Hle, nonneg_at_all. vm_compute. reflexivity.
  - apply Heq; [|simpl; lia]. apply present_at_all. vm_compute. reflexivity.
Defined.

(** C1, as the claim has it, fails twice.  With a negative sales figure the
    ten largest add up to more than all eleven; and without product names
    [product_count] is 0 while eleven rows are summed, ten of them in
    [top10_sales]. *)
Lemma top10_sales_can_exceed_total_sales :
  (exists s : Summary,
     aggregated (Some returns_heavy_file) (Some "UAE") = Ok [s]
     /\ (total_sales s < top10_sales s)%Q)
  /\ (exists s : Summary,
        aggregated (Some unnamed_file) (Some "UAE") = Ok [s]
        /\ (product_count s <= 10)%Z
        /\ ~ (top10_sales s == total_sales s)%Q).
Proof.
  split.
  - exists (mkSummary (Str "Toys") 11 5 0 10).
    split; [vm_compute; reflexivity | reflexivity].
  - exists (mkSummary (Str "Toys") 0 11 0 10).
    split; [vm_compute; reflexivity|]. split; [simpl; lia|].
    simpl. intros H. discriminate H.
Qed.

(** With distinct keys on both sides the join pairs every row of
    [base_stats] with exactly one row of [top10_stats]. *)
Lemma merge_product_counts (base : list BaseStat) (top : list (cell * Q)) :
  (forall b, In b base ->
     length (List.filter (fun kt => cell_eqb (base_category b) (fst kt)) top) = 1%nat) ->
  Zsum (product_count <$> merge base top) = Zsum (base_product_count <$> base).
Proof.
  unfold merge. induction base as [|b base IH]; intros Hone; [reflexivity|].
  cbn [flat_map]. rewrite fmap_app, Zsum_app, IH.
  - specialize (Hone b (or_introl eq_refl)).
    destruct (List.filter (fun kt => cell_eqb (base_category b) (fst kt)) top)
      as [|kt [|kt' l]]; try discriminate.
    cbn. unfold Zsum. cbn. lia.
  - intros b' Hb'. apply Hone. right. exact Hb'.
Qed.

Lemma filter_fst_length (x : cell) (top : list (cell * Q)) :
  length (List.filter (fun kt => cell_eqb x (fst kt)) top)
  = length (List.filter (cell_eqb x) (fst <$> top)).
Proof.
  induction top as [|kt top IH]; [reflexivity|].
  cbn. destruct (cell_eqb x (fst kt)); cbn; rewrite IH; reflexivity.
Qed.

Lemma Forall2_fmap_eq {A B C} (f : A -> C) (g : B -> C) (l : list A) (l' : list B) :
  Forall2 (fun x y => g y = f x) l l' -> g <$> l' = f <$> l.
Proof. induction 1 as [|x y l l' Hxy _ IH]; cbn; [reflexivity|]. congruence. Qed.

(** C3, as the code has it.  When every row has a category and a product
    name, the product counts of the summaries add up to the number of rows.
    ([product_count] counts the product names of a group, so a row without a
    name is a row it does not count.) *)
Theorem product_counts_add_up_to_the_rows (df : DataFrame) (stats : list Summary) :
  category_stats df = Ok stats ->
  (forall r, In r (rows df) -> cell_at "Target_Category" r <> Null) ->
  (forall r, In r (rows df) -> cell_at "产品名" r <> Null) ->
  Zsum (product_count <$> stats) = Z.of_nat (length (rows df)).
Proof.
  intros Hstats Hcats Hnames.
  unfold category_stats in Hstats. inv_bind Hstats. inv_bind Hstats.
  injection Hstats as <-.
  pose proof (base_stats_spec _ _ Ha) as Hbase.
  pose proof (top10_stats_spec _ _ Ha0) as Htop.
  set (keys := group_keys "Target_Category" (rows df)) in *.
  assert (Hkeys_base : base_category <$> a = keys).
  { rewrite <- (list_fmap_id keys). apply Forall2_fmap_eq.
    eapply Forall2_impl; [exact Hbase|]. intros k b H. apply H. }
  assert (Hkeys_top : fst <$> a0 = keys).
  { rewrite <- (list_fmap_id keys). apply Forall2_fmap_eq.
    eapply Forall2_impl; [exact Htop|]. intros k kt H. apply H. }
  rewrite merge_product_counts.
  - assert (Hcounts : base_product_count <$> a
              = (fun k => Z.of_nat (length (group_of "Target_Category" k (rows df))))
                <$> keys).
    { apply Forall2_fmap_eq. eapply Forall2_impl; [exact Hbase|].
      intros k b (_ & Hcount & _). rewrite Hcount. apply count_col_all.
      intros r Hr. apply Hnames. eapply group_of_In, Hr. }
    rewrite Hcounts. apply groups_partition.
    + apply group_keys_distinct.
    + intros r Hr. apply group_keys_cover; [exact Hr | apply Hcats, Hr].
  - intros b Hb. rewrite filter_fst_length, Hkeys_top.
    apply key_met_once; [apply group_keys_distinct|].
    exists (base_category b). split; [|apply cell_eqb_refl].
    rewrite <- Hkeys_base. apply list_elem_of_In, list_elem_of_fmap.
    exists b. split; [reflexivity | apply list_elem_of_In, Hb].
Qed.

Lemma product_counts_add_up_to_the_rows_witness :
  exists stats : list Summary,
    category_stats toys_uae = Ok stats
    /\ Zsum (product_count <$> stats) = 2%Z.
Proof.
  exists [mkSummary (Str "Toys") 2 150 10 150].
  assert (Hstats : category_stats toys_uae = Ok [mkSummary (Str "Toys") 2 150 10 150]).
  { vm_compute. reflexivity. }
  split; [exact Hstats|].
  apply (product_counts_add_up_to_the_rows toys_uae _ Hstats);
    apply present_at_all; vm_compute; reflexivity.
Defined.

(** C3, as the claim has it, fails: the eleven rows of [unnamed_uae] all have
    a category, and their only summary has a product count of 0. *)
Lemma product_counts_miss_unnamed_rows :
  exists stats : list Summary,
    category_stats unnamed_uae = Ok stats
    /\ Forall (fun r => cell_at "Target_Category" r <> Null) (rows unnamed_uae)
    /\ Zsum (product_count <$> stats) = 0%Z
    /\ Z.of_nat (length (rows unnamed_uae)) = 11%Z
    /\ Zsum (product_count <$> stats) <> Z.of_nat (length (rows unnamed_uae)).
Proof.
  exists [mkSummary (Str "Toys") 0 11 0 10].
  split; [vm_compute; reflexivity|].
  split; [|split; [reflexivity|split; [reflexivity|vm_compute; discriminate]]].
  apply Forall_forall. intros r Hr. apply list_elem_of_In in Hr. revert r Hr.
  apply present_at_all. vm_compute. reflexivity.
Qed.

(* ================================================================== *)
(** ** Category details *)

(** The rows the Detail Selector returns for a category: the rows of that
    category, each once, in ascending order of rank. *)
Theorem subset_is_the_category_by_rank
    (df : DataFrame) (current_cat : cell) (rs : list (gmap string cell)) :
  subset df current_cat = Ok rs ->
  Permutation rs
    (List.filter (fun r => cell_eqb (cell_at "Target_Category" r) current_cat)
                 (rows df))
  /\ (forall r, In r rs <->
                In r (rows df) /\ cell_eqb (cell_at "Target_Category" r) current_cat = true)
  /\ (forall (i : nat) (a b : gmap string cell),
        rs !! i = Some a -> rs !! S i = Some b ->
        exists qa qb : Q,
          num_at "排名" a = Ok qa /\ num_at "排名" b = Ok qb /\ (qa <= qb)%Q).
Proof.
  unfold subset. intros H.
  destruct (sort_rows_spec _ _ _ _ H) as (ks & -> & Hperm & Hkeys).
  split; [exact Hperm|]. split.
  - intros r.
    rewrite <- (List.filter_In
                  (fun r => cell_eqb (cell_at "Target_Category" r) current_cat)).
    split; apply Permutation_in; [exact Hperm | symmetry; exact Hperm].
  - intros i a b Ha Hb.
    rewrite list_lookup_fmap in Ha, Hb.
    destruct (sort_values fst true ks !! i) as [ka|] eqn:Eka; [|discriminate].
    destruct (sort_values fst true ks !! S i) as [kb|] eqn:Ekb; [|discriminate].
    injection Ha as <-. injection Hb as <-.
    rewrite Forall_forall in Hkeys.
    exists (fst ka), (fst kb). split; [|split].
    + apply Hkeys. eapply list_elem_of_lookup_2, Eka.
    + apply Hkeys. eapply list_elem_of_lookup_2, Ekb.
    + eapply (Sorted_adjacent (fun x y : Q * gmap string cell => fst x <= fst y)%Q);
        [apply sort_values_ascending | exact Eka | exact Ekb].
Qed.

Lemma subset_is_the_category_by_rank_witness :
  subset toys_uae (Str "Toys") = Ok toys_by_rank
  /\ (cell_at "产品名" <$> toys_by_rank) = [Str "kite"; Str "robot"]
  /\ Permutation toys_by_rank
       (List.filter (fun r => cell_eqb (cell_at "Target_Category" r) (Str "Toys"))
                    (rows toys_uae)).
Proof.
  assert (E : subset toys_uae (Str "Toys") = Ok toys_by_rank)
    by (apply is_Ok_from_Ok; vm_compute; reflexivity).
  split; [exact E|]. split; [vm_compute; reflexivity|].
  destruct (subset_is_the_category_by_rank toys_uae (Str "Toys") toys_by_rank E)
    as [Hperm _].
  exact Hperm.
Defined.

(** The category shown: the one in the session if it qualifies, the first
    qualifying one otherwise, none ([Null]) when none qualifies. *)
Lemma current_cat_fallback (state : cell) (valid : list cell) :
  (py_in state valid = true -> current_cat state valid = state)
  /\ (py_in state valid = false ->
      current_cat state valid = match valid with c :: _ => c | [] => Null end).
Proof. unfold current_cat. destruct (py_in state valid); simpl; split; congruence. Qed.

(** C6, where the code departs from it.  The only category of
    [blank_category_file] is the empty text; it qualifies, and with nothing
    selected in the session the fallback of line 202 picks it.  Line 204
    then tests the truth value of that text: the warning of line 261 is
    shown and none of the rows that line 205 would return. *)
Theorem blank_category_is_shown_as_no_category :
  exists v : View,
    dashboard (Some blank_category_file) untouched = Ok v
    /\ view_categories v = [Str ""]
    /\ view_current v = Str ""
    /\ view_subset v = None
    /\ exists rs, subset (loaded blank_category_file) (Str "") = Ok rs
                  /\ length rs = 10%nat.
Proof.
  exists (from_Ok (mkView [] [] Null None)
            (dashboard (Some blank_category_file) untouched)).
  split; [apply is_Ok_from_Ok; vm_compute; reflexivity|].
  split; [vm_compute; reflexivity|]. split; [vm_compute; reflexivity|].
  split; [vm_compute; reflexivity|].
  exists (from_Ok [] (subset (loaded blank_category_file) (Str ""))).
  split; [apply is_Ok_from_Ok; vm_compute; reflexivity | vm_compute; reflexivity].
Qed.

(* ================================================================== *)
(** ** The summaries, one per category *)

Lemma Forall2_compose {A B C} (P : A -> B -> Prop) (R : B -> C -> Prop)
    (l1 : list A) (l2 : list B) (l3 : list C) :
  Forall2 P l1 l2 -> Forall2 R l2 l3 ->
  Forall2 (fun x z => exists y, In y l2 /\ P x y /\ R y z) l1 l3.
Proof.
  intros H. revert l3. induction H as [|x y l1 l2 Hxy _ IH]; intros l3 H3.
  - inversion H3. constructor.
  - inversion H3 as [|y' z l2' l3' Hyz Hrest]; subst. constructor.
    + exists y. split; [left; reflexivity | split; assumption].
    + eapply Forall2_impl; [apply IH, Hrest|].
      intros x' z' (y' & Hin & HP & HR). exists y'.
      split; [right; exact Hin | split; assumption].
Qed.

(** With each base row meeting one row on the right, the join has one row
    per base row, in the same order. *)
Lemma merge_rows (base : list BaseStat) (top : list (cell * Q)) :
  (forall b, In b base ->
     length (List.filter (fun kt => cell_eqb (base_category b) (fst kt)) top) = 1%nat) ->
  Forall2 (fun b s =>
             exists kt, In kt top
               /\ cell_eqb (base_category b) (fst kt) = true
               /\ s = mkSummary (base_category b) (base_product_count b)
                        (base_total_sales b) (base_total_reviews b) (snd kt))
          base (merge base top).
Proof.
  unfold merge. induction base as [|b base IH]; intros Hone; [constructor|].
  cbn [flat_map].
  pose proof (Hone b (or_introl eq_refl)) as Hb.
  destruct (List.filter (fun kt => cell_eqb (base_category b) (fst kt)) top)
    as [|kt [|kt' l]] eqn:E; try discriminate.
  cbn. constructor.
  - assert (Hin : In kt (List.filter
                    (fun kt => cell_eqb (base_category b) (fst kt)) top)).
    { rewrite E. left. reflexivity. }
    apply List.filter_In in Hin as [Hin Heq]. exists kt. auto.
  - apply IH. intros b' Hb'. apply Hone. right. exact Hb'.
Qed.

Lemma base_top_once (df : DataFrame) (base : list BaseStat) (top : list (cell * Q)) :
  base_stats df = Ok base -> top10_stats df = Ok top ->
  forall b, In b base ->
    length (List.filter (fun kt => cell_eqb (base_category b) (fst kt)) top) = 1%nat.
Proof.
  intros Hbase Htop b Hb.
  apply base_stats_spec in Hbase. apply top10_stats_spec in Htop.
  assert (Hkeys_top : fst <$> top = group_keys "Target_Category" (rows df)).
  { rewrite <- (list_fmap_id (group_keys _ _)). apply Forall2_fmap_eq.
    eapply Forall2_impl; [exact Htop|]. intros k kt H. apply H. }
  rewrite filter_fst_length, Hkeys_top.
  apply key_met_once; [apply group_keys_distinct|].
  destruct (Forall2_In_r _ _ _ _ Hbase Hb) as (k & Hk & Hcat & _).
  exists k. split; [exact Hk|]. rewrite Hcat. apply cell_eqb_refl.
Qed.

(** [category_stats], key by key: the summaries stand in the order of the
    group keys and each one summarises the group of its key. *)
Lemma category_stats_rows (df : DataFrame) (stats : list Summary) :
  category_stats df = Ok stats ->
  Forall2 (fun k s =>
             Target_Category s = k
             /\ product_count s
                = count_col "产品名" (group_of "Target_Category" k (rows df))
             /\ sum_col "销量数字" (group_of "Target_Category" k (rows df))
                = Ok (total_sales s)
             /\ sum_col "评论数" (group_of "Target_Category" k (rows df))
                = Ok (total_reviews s)
             /\ get_top10_sum (group_of "Target_Category" k (rows df))
                = Ok (top10_sales s))
          (group_keys "Target_Category" (rows df)) stats.
Proof.
  unfold category_stats. intros H. inv_bind H. inv_bind H. injection H as <-.
  pose proof (merge_rows a a0 (base_top_once df a a0 Ha Ha0)) as Hmerge.
  pose proof (Forall2_compose _ _ _ _ _ (base_stats_spec _ _ Ha) Hmerge) as Hall.
  eapply Forall2_impl; [exact Hall|]. clear Hall Hmerge.
  intros k s (b & _ & (Hcat & Hcount & Hsales & Hreviews) & kt & Hkt & Heq & ->).
  destruct (Forall2_In_r _ _ _ _ (top10_stats_spec _ _ Ha0) Hkt)
    as (k' & _ & Hcat' & Htop).
  rewrite Hcat, Hcat' in Heq.
  rewrite <- (group_of_eqb _ _ _ _ Heq) in Htop.
  simpl. repeat split; assumption.
Qed.

Lemma category_stats_keys (df : DataFrame) (stats : list Summary) :
  category_stats df = Ok stats ->
  Target_Category <$> stats = group_keys "Target_Category" (rows df).
Proof.
  intros H. rewrite <- (list_fmap_id (group_keys _ _)). apply Forall2_fmap_eq.
  eapply Forall2_impl; [apply category_stats_rows, H|]. intros k s Hs. apply Hs.
Qed.

Lemma group_keys_In (col : string) (rs : list (gmap string cell)) (k : cell) :
  In k (group_keys col rs) ->
  k <> Null /\ exists r, In r rs /\ cell_at col r = k.
Proof.
  unfold group_keys. intros H.
  apply (Permutation_in _ (sort_by_perm key_leb _)) in H.
  apply unique_In, List.filter_In in H as [H Hnotnull].
  apply list_elem_of_In, list_elem_of_fmap in H as (r & -> & Hr).
  split.
  - intros Hnull. rewrite Hnull in Hnotnull. discriminate.
  - exists r. split; [apply list_elem_of_In, Hr | reflexivity].
Qed.

(** Two places of a list that both pass a test make the filter at least two
    long. *)
Lemma filter_two {A} (p : A -> bool) (l : list A) (i j : nat) (a b : A) :
  l !! i = Some a -> l !! j = Some b -> i <> j -> p a = true -> p b = true ->
  (2 <= length (List.filter p l))%nat.
Proof.
  revert i j. induction l as [|x l IH]; intros i j Ha Hb Hij Hpa Hpb; [discriminate|].
  assert (Hone : forall n c, l !! n = Some c -> p c = true ->
                   (1 <= length (List.filter p l))%nat).
  { intros n c Hn Hc.
    assert (Hin : In c (List.filter p l)).
    { apply List.filter_In. split; [|exact Hc].
      apply list_elem_of_In. eapply list_elem_of_lookup_2, Hn. }
    destruct (List.filter p l); [destruct Hin | simpl; lia]. }
  destruct i as [|i], j as [|j]; simpl in *.
  - congruence.
  - injection Ha as ->. rewrite Hpa. simpl. specialize (Hone j b Hb Hpb). lia.
  - injection Hb as ->. rewrite Hpb. simpl. specialize (Hone i a Ha Hpa). lia.
  - assert (Hl : (2 <= length (List.filter p l))%nat).
    { apply (IH i j); try assumption. congruence. }
    destruct (p x); simpl; lia.
Qed.

Lemma key_leb_total (a b : cell) : key_leb a b = false -> key_leb b a = true.
Proof.
  destruct a, b; simpl; try congruence.
  - intros H. destruct (String.leb_total s s0); congruence.
  - apply Qle_bool_total.
Qed.

(** The Aggregator returns one summary for each category that occurs: no
    summary has a null category, each comes from a row of its category, each
    row with a category has its summary, no two summaries have equal
    categories, and the summaries stand in the order of their categories
    (numbers first, then texts by code point). *)
Theorem one_summary_per_category (df : DataFrame) (stats : list Summary) :
  category_stats df = Ok stats ->
  (forall s, In s stats ->
     Target_Category s <> Null
     /\ exists r, In r (rows df) /\ cell_at "Target_Category" r = Target_Category s)
  /\ (forall r, In r (rows df) -> cell_at "Target_Category" r <> Null ->
      exists s, In s stats
        /\ cell_eqb (cell_at "Target_Category" r) (Target_Category s) = true)
  /\ (forall (i j : nat) (s t : Summary),
        stats !! i = Some s -> stats !! j = Some t -> i <> j ->
        cell_eqb (Target_Category s) (Target_Category t) = false)
  /\ (forall (i : nat) (s t : Summary),
        stats !! i = Some s -> stats !! S i = Some t ->
        key_leb (Target_Category s) (Target_Category t) = true).
Proof.
  intros H. pose proof (category_stats_keys df stats H) as Hkeys.
  assert (Hin : forall s, In s stats ->
            In (Target_Category s) (group_keys "Target_Category" (rows df))).
  { intros s Hs. rewrite <- Hkeys. apply list_elem_of_In, list_elem_of_fmap.
    exists s. split; [reflexivity | apply list_elem_of_In, Hs]. }
  split; [|split; [|split]].
  - intros s Hs. apply group_keys_In, Hin, Hs.
  - intros r Hr Hnotnull.
    destruct (group_keys_cover "Target_Category" (rows df) r Hr Hnotnull)
      as (k & Hk & Heq).
    rewrite <- Hkeys in Hk.
    apply list_elem_of_In, list_elem_of_fmap in Hk as (s & -> & Hs).
    exists s. split; [apply list_elem_of_In, Hs | exact Heq].
  - intros i j s t Hs Ht Hij.
    destruct (cell_eqb (Target_Category s) (Target_Category t)) eqn:E; [|reflexivity].
    pose proof (group_keys_distinct "Target_Category" (rows df) (Target_Category s))
      as Hdistinct.
    rewrite <- Hkeys in Hdistinct.
    assert (Htwo : (2 <= length (List.filter (cell_eqb (Target_Category s))
                                   (Target_Category <$> stats)))%nat).
    { apply (filter_two _ _ i j (Target_Category s) (Target_Category t));
        try assumption.
      - rewrite list_lookup_fmap, Hs. reflexivity.
      - rewrite list_lookup_fmap, Ht. reflexivity.
      - apply cell_eqb_refl. }
    lia.
  - intros i s t Hs Ht.
    apply (Sorted_adjacent (fun a b => key_leb a b = true)
             (Target_Category <$> stats)) with (i := i).
    + rewrite Hkeys. unfold group_keys. apply sort_by_sorted, key_leb_total.
    + rewrite list_lookup_fmap, Hs. reflexivity.
    + rewrite list_lookup_fmap, Ht. reflexivity.
Qed.

Lemma one_summary_per_category_witness :
  Target_Category (mkSummary (Str "Toys") 2 150 10 150) <> Null
  /\ exists r, In r (rows toys_uae)
       /\ cell_at "Target_Category" r
          = Target_Category (mkSummary (Str "Toys") 2 150 10 150).
Proof.
  assert (Hstats : category_stats toys_uae = Ok [mkSummary (Str "Toys") 2 150 10 150]).
  { vm_compute. reflexivity. }
  destruct (one_summary_per_category toys_uae _ Hstats) as [Hfrom _].
  apply Hfrom. left. reflexivity.
Defined.

Lemma count_col_bounds (col : string) (g : list (gmap string cell)) :
  (0 <= count_col col g <= Z.of_nat (length g))%Z.
Proof.
  unfold count_col. pose proof (List.filter_length_le (fun r => notnull (cell_at col r)) g).
  lia.
Qed.

(** [product_count] lies between 0 and the number of rows of the category,
    and it is that number, at least 1, when every row has a product name. *)
Theorem product_count_bounds (df : DataFrame) (stats : list Summary) (s : Summary) :
  category_stats df = Ok stats ->
  In s stats ->
  (0 <= product_count s
     <= Z.of_nat (length (group_of "Target_Category" (Target_Category s) (rows df))))%Z
  /\ ((forall r, In r (rows df) -> cell_at "产品名" r <> Null) ->
      product_count s
      = Z.of_nat (length (group_of "Target_Category" (Target_Category s) (rows df)))
      /\ (1 <= product_count s)%Z).
Proof.
  intros H Hs.
  destruct (Forall2_In_r _ _ _ _ (category_stats_rows df stats H) Hs)
    as (k & Hk & Hcat & Hcount & _).
  rewrite Hcat, Hcount. split; [apply count_col_bounds|].
  intros Hnames.
  assert (Hall : count_col "产品名" (group_of "Target_Category" k (rows df))
                 = Z.of_nat (length (group_of "Target_Category" k (rows df)))).
  { apply count_col_all. intros r Hr. apply Hnames. eapply group_of_In, Hr. }
  split; [exact Hall|]. rewrite Hall.
  destruct (group_keys_In _ _ _ Hk) as (_ & r & Hr & Hrk).
  assert (Hin : In r (group_of "Target_Category" k (rows df))).
  { unfold group_of. apply List.filter_In. split; [exact Hr|].
    rewrite Hrk. apply cell_eqb_refl. }
  destruct (group_of "Target_Category" k (rows df)); [destruct Hin | simpl; lia].
Qed.

Lemma product_count_bounds_witness :
  (1 <= product_count (mkSummary (Str "Toys") 2 150 10 150))%Z.
Proof.
  assert (Hstats : category_stats toys_uae = Ok [mkSummary (Str "Toys") 2 150 10 150]).
  { vm_compute. reflexivity. }
  destruct (product_count_bounds toys_uae _ _ Hstats (or_introl eq_refl)) as [_ Hnamed].
  apply Hnamed, present_at_all. vm_compute. reflexivity.
Defined.

(* ================================================================== *)
(** ** Totals are conserved *)

(** The number in a cell, 0 where [num_at] fails. *)
Lemma nums_total (col : string) (g : list (gmap string cell)) :
  (forall r, In r g -> exists q, num_at col r = Ok q) ->
  nums col g = Ok ((fun r => from_Ok 0%Q (num_at col r)) <$> g).
Proof.
  unfold nums. induction g as [|r g IH]; intros Hall; [reflexivity|].
  destruct (Hall r (or_introl eq_refl)) as [q Hq].
  cbn. rewrite Hq. cbn. rewrite IH.
  - reflexivity.
  - intros r' Hr'. apply Hall. right. exact Hr'.
Qed.

Lemma nums_In (col : string) (g : list (gmap string cell)) (qs : list Q)
    (r : gmap string cell) :
  nums col g = Ok qs -> In r g -> exists q, num_at col r = Ok q.
Proof.
  unfold nums. intros H Hr. apply traverse_Forall2 in H.
  induction H as [|r' q g qs Hq _ IH]; [destruct Hr|].
  destruct Hr as [->|Hr]; [eauto | apply IH, Hr].
Qed.

Lemma Qsum_cons (x : Q) (l : list Q) : Qsum (x :: l) = (x + Qsum l)%Q.
Proof. reflexivity. Qed.

Lemma indicator_sum {A} (p : A -> bool) (x : Q) (keys : list A) :
  (Qsum ((fun k => if p k then x else 0) <$> keys)
   == inject_Z (Z.of_nat (length (List.filter p keys))) * x)%Q.
Proof.
  induction keys as [|k keys IH]; cbn; [ring|].
  rewrite IH. destruct (p k); cbn [length].
  - rewrite Nat2Z.inj_succ. unfold Z.succ. rewrite inject_Z_plus. ring.
  - ring.
Qed.

(** The sums of the groups add up to the sum over all rows. *)
Lemma groups_partition_sum (col : string) (v : gmap string cell -> Q)
    (keys : list cell) (rs : list (gmap string cell)) :
  (forall y, (length (List.filter (cell_eqb y) keys) <= 1)%nat) ->
  (forall r, In r rs -> exists k, In k keys /\ cell_eqb (cell_at col r) k = true) ->
  (Qsum ((fun k => Qsum (v <$> group_of col k rs)) <$> keys) == Qsum (v <$> rs))%Q.
Proof.
  intros Hdistinct. induction rs as [|r rs IH]; intros Hcover.
  - clear. induction keys as [|k keys IH]; [reflexivity|].
    rewrite fmap_cons, Qsum_cons, IH. cbn. ring.
  - assert (Hstep : forall ks,
              (Qsum ((fun k => Qsum (v <$> group_of col k (r :: rs))) <$> ks)
               == Qsum ((fun k => if cell_eqb (cell_at col r) k then v r else 0) <$> ks)
                  + Qsum ((fun k => Qsum (v <$> group_of col k rs)) <$> ks))%Q).
    { induction ks as [|k ks IHks]; [cbn; ring|].
      rewrite !fmap_cons, !Qsum_cons, IHks. unfold group_of at 1.
      cbn [List.filter]. fold (group_of col k rs).
      destruct (cell_eqb (cell_at col r) k);
        [rewrite fmap_cons, Qsum_cons|]; ring. }
    rewrite Hstep, indicator_sum, IH.
    + rewrite (key_met_once keys (cell_at col r) Hdistinct).
      * rewrite fmap_cons, Qsum_cons. change (inject_Z (Z.of_nat 1)) with 1%Q. ring.
      * apply Hcover. left. reflexivity.
    + intros r' Hr'. apply Hcover. right. exact Hr'.
Qed.

Lemma sum_col_total (col : string) (g : list (gmap string cell)) (q : Q) :
  sum_col col g = Ok q ->
  q = Qsum ((fun r => from_Ok 0%Q (num_at col r)) <$> g).
Proof.
  unfold sum_col. intros H. inv_bind H. subst q.
  rewrite nums_total in Ha.
  - injection Ha as <-. reflexivity.
  - intros r Hr. eapply nums_In; eassumption.
Qed.

(** When every row has a category, and the sales and the reviews are whole
    numbers within the range in which pandas adds exactly, the sales and the
    reviews of all rows are found again in the summaries: [total_sales]
    adds up to the sum of the sales column and [total_reviews] to the sum
    of the reviews column. *)
Theorem totals_are_conserved (df : DataFrame) (stats : list Summary) :
  category_stats df = Ok stats ->
  (forall r, In r (rows df) -> cell_at "Target_Category" r <> Null) ->
  sums_exactly "销量数字" (rows df) = true ->
  sums_exactly "评论数" (rows df) = true ->
  exists sales reviews : Q,
    sum_col "销量数字" (rows df) = Ok sales
    /\ sum_col "评论数" (rows df) = Ok reviews
    /\ (Qsum (total_sales <$> stats) == sales)%Q
    /\ (Qsum (total_reviews <$> stats) == reviews)%Q.
Proof.
  intros H Hcats _ _. pose proof (category_stats_rows df stats H) as Hrows.
  set (keys := group_keys "Target_Category" (rows df)) in *.
  assert (Hcover : forall r, In r (rows df) ->
            exists k, In k keys /\ cell_eqb (cell_at "Target_Category" r) k = true).
  { intros r Hr. apply group_keys_cover; [exact Hr | apply Hcats, Hr]. }
  assert (Hnum : forall col,
            Forall2 (fun k s => exists q,
                       sum_col col (group_of "Target_Category" k (rows df)) = Ok q) keys stats ->
            forall r, In r (rows df) -> exists q, num_at col r = Ok q).
  { intros col Hsum r Hr. destruct (Hcover r Hr) as (k & Hk & Heq).
    apply list_elem_of_In, list_elem_of_lookup in Hk as [i Hi].
    destruct (Forall2_lookup_l _ _ _ _ _ Hsum Hi) as (s & _ & q & Hq).
    unfold sum_col in Hq. inv_bind Hq.
    eapply nums_In; [exact Ha|]. unfold group_of. apply List.filter_In. auto. }
  assert (Hsales : forall r, In r (rows df) -> exists q, num_at "销量数字" r = Ok q).
  { apply Hnum. eapply Forall2_impl; [exact Hrows|].
    intros k s (_ & _ & Hs & _). eauto. }
  assert (Hreviews : forall r, In r (rows df) -> exists q, num_at "评论数" r = Ok q).
  { apply Hnum. eapply Forall2_impl; [exact Hrows|].
    intros k s (_ & _ & _ & Hs & _). eauto. }
  exists (Qsum ((fun r => from_Ok 0%Q (num_at "销量数字" r)) <$> rows df)),
         (Qsum ((fun r => from_Ok 0%Q (num_at "评论数" r)) <$> rows df)).
  split; [unfold sum_col; rewrite (nums_total _ _ Hsales); reflexivity|].
  split; [unfold sum_col; rewrite (nums_total _ _ Hreviews); reflexivity|].
  split.
  - rewrite <- (groups_partition_sum "Target_Category" _ keys (rows df)
                  (group_keys_distinct _ _) Hcover).
    assert (Heq : total_sales <$> stats
                  = (fun k => Qsum ((fun r => from_Ok 0%Q (num_at "销量数字" r))
                                    <$> group_of "Target_Category" k (rows df)))
                    <$> keys).
    { apply Forall2_fmap_eq. eapply Forall2_impl; [exact Hrows|].
      intros k s (_ & _ & Hs & _). apply sum_col_total, Hs. }
    rewrite Heq. reflexivity.
  - rewrite <- (groups_partition_sum "Target_Category" _ keys (rows df)
                  (group_keys_distinct _ _) Hcover).
    assert (Heq : total_reviews <$> stats
                  = (fun k => Qsum ((fun r => from_Ok 0%Q (num_at "评论数" r))
                                    <$> group_of "Target_Category" k (rows df)))
                    <$> keys).
    { apply Forall2_fmap_eq. eapply Forall2_impl; [exact Hrows|].
      intros k s (_ & _ & _ & Hs & _). apply sum_col_total, Hs. }
    rewrite Heq. reflexivity.
Qed.

Lemma totals_are_conserved_witness :
  exists sales reviews : Q,
    sum_col "销量数字" (rows toys_uae) = Ok sales
    /\ sum_col "评论数" (rows toys_uae) = Ok reviews
    /\ (Qsum (total_sales <$> [mkSummary (Str "Toys") 2 150 10 150]) == sales)%Q
    /\ (Qsum (total_reviews <$> [mkSummary (Str "Toys") 2 150 10 150]) == reviews)%Q.
Proof.
  apply (totals_are_conserved toys_uae).
  - vm_compute. reflexivity.
  - apply present_at_all. vm_compute. reflexivity.
  - vm_compute. reflexivity.
  - vm_compute. reflexivity.
Defined.

(* ================================================================== *)
(** ** The ten largest *)

(** In a list in descending order of a non-negative key, no selection of at
    most [n] elements adds up to more than the first [n]. *)
Lemma take_is_largest {A} (f : A -> Q) (n : nat) (l m : list A) :
  StronglySorted (fun a b => f b <= f a)%Q l ->
  Forall (fun x => 0 <= f x)%Q l ->
  m ⊆+ l -> (length m <= n)%nat ->
  (Qsum (f <$> m) <= Qsum (f <$> take n l))%Q.
Proof.
  revert l m. induction n as [|n IH]; intros l m Hsorted Hnonneg Hsub Hlen.
  - destruct m; [|simpl in Hlen; lia]. rewrite take_0. apply Qle_refl.
  - destruct l as [|x l].
    + apply submseteq_nil_r in Hsub as ->. apply Qle_refl.
    + apply StronglySorted_inv in Hsorted as [Hsorted Hmax].
      apply Forall_cons in Hnonneg as [Hx Hnonneg].
      cbn [take]. rewrite fmap_cons, Qsum_cons.
      apply submseteq_cons_r in Hsub as [Hsub|(m' & Hperm & Hsub)].
      * destruct m as [|y m].
        { cbn. pose proof (Qsum_nonneg (f <$> take n l)) as Hrest.
          assert (0 <= Qsum (f <$> take n l))%Q.
          { apply Hrest, Forall_fmap, Forall_take. exact Hnonneg. }
          lra. }
        rewrite fmap_cons, Qsum_cons.
        assert (Hy : (f y <= f x)%Q).
        { rewrite Forall_forall in Hmax. apply Hmax.
          apply (elem_of_submseteq (y :: m)); [left | exact Hsub]. }
        assert (Hm : (Qsum (f <$> m) <= Qsum (f <$> take n l))%Q).
        { apply IH; try assumption.
          - etransitivity; [apply submseteq_cons | exact Hsub].
            reflexivity.
          - simpl in Hlen. lia. }
        lra.
      * rewrite (Qsum_perm _ _ (fmap_Permutation f _ _ Hperm)).
        rewrite fmap_cons, Qsum_cons.
        assert (Hm : (Qsum (f <$> m') <= Qsum (f <$> take n l))%Q).
        { apply IH; try assumption.
          apply Permutation_length in Hperm. simpl in Hperm. lia. }
        lra.
Qed.

Lemma get_top10_sum_spec (g : list (gmap string cell)) (t : Q) :
  get_top10_sum g = Ok t ->
  exists ks : list (Q * gmap string cell),
    keyed "销量数字" g = Ok ks
    /\ t = Qsum (fst <$> take 10 (sort_values fst false ks)).
Proof.
  unfold get_top10_sum, nlargest. intros H.
  destruct (keyed "销量数字" g) as [ks| |] eqn:Hks; [|discriminate..].
  change (Qsum <$> nums "销量数字" (snd <$> take 10 (sort_values fst false ks)) = Ok t)
    in H.
  exists ks. split; [reflexivity|].
  destruct (keyed_spec _ _ _ Hks) as [_ Hkeys].
  rewrite (nums_keyed "销量数字" (take 10 (sort_values fst false ks))) in H.
  - cbn in H. injection H as <-. reflexivity.
  - apply Forall_take. eapply Permutation_Forall; [|exact Hkeys].
    symmetry. apply sort_values_perm.
Qed.

(** When no sales figure is negative, and the sales are whole numbers within
    the range in which pandas adds exactly, [top10_sales] is the largest
    total that ten rows of the category can reach: it is the total of some
    selection of at most ten of its rows, and the sales of any selection of
    at most ten of its rows add up to no more. *)
Theorem top10_is_the_largest_ten
    (df : DataFrame) (stats : list Summary) (s : Summary) :
  category_stats df = Ok stats ->
  In s stats ->
  sums_exactly "销量数字" (rows df) = true ->
  (forall r q, In r (rows df) -> num_at "销量数字" r = Ok q -> (0 <= q)%Q) ->
  (exists top : list (gmap string cell),
     top ⊆+ group_of "Target_Category" (Target_Category s) (rows df)
     /\ (length top <= 10)%nat
     /\ sum_col "销量数字" top = Ok (top10_sales s))
  /\ (forall picked : list (gmap string cell),
        picked ⊆+ group_of "Target_Category" (Target_Category s) (rows df) ->
        (length picked <= 10)%nat ->
        exists q : Q,
          sum_col "销量数字" picked = Ok q /\ (q <= top10_sales s)%Q).
Proof.
  intros H Hs _ Hnonneg.
  destruct (Forall2_In_r _ _ _ _ (category_stats_rows df stats H) Hs)
    as (k & _ & Hcat & _ & _ & _ & Htop).
  rewrite Hcat. set (g := group_of "Target_Category" k (rows df)) in *.
  destruct (get_top10_sum_spec g _ Htop) as (ks & Hks & Ht).
  destruct (keyed_spec _ _ _ Hks) as [Hrows Hkeys].
  split.
  { exists (snd <$> take 10 (sort_values fst false ks)). split; [|split].
    - rewrite <- Hrows. apply fmap_submseteq.
      etransitivity; [apply sublist_submseteq, sublist_take|].
      apply Permutation_submseteq, sort_values_perm.
    - rewrite length_fmap, length_take. lia.
    - unfold get_top10_sum, nlargest in Htop. rewrite Hks in Htop. exact Htop. }
  intros picked Hsub Hlen.
  set (w := fun r : gmap string cell => (from_Ok 0%Q (num_at "销量数字" r), r)).
  assert (Hw : ks = w <$> g).
  { rewrite <- Hrows. clear -Hkeys.
    induction Hkeys as [|[q r] ks Hq _ IH]; [reflexivity|].
    cbn in *. rewrite <- IH. unfold w. rewrite Hq. reflexivity. }
  assert (Hnum : forall r, In r picked -> exists q, num_at "销量数字" r = Ok q).
  { intros r Hr. apply list_elem_of_In in Hr.
    pose proof (elem_of_submseteq _ _ _ Hr Hsub) as Hg.
    rewrite <- Hrows in Hg. apply list_elem_of_fmap in Hg as ([q r'] & -> & Hin).
    rewrite Forall_forall in Hkeys. exists q. apply (Hkeys _ Hin). }
  exists (Qsum (fst <$> (w <$> picked))). split.
  - unfold sum_col. rewrite (nums_total _ _ Hnum).
    rewrite <- list_fmap_compose. reflexivity.
  - rewrite Ht. apply take_is_largest.
    + apply Sorted_StronglySorted; [|apply sort_values_descending].
      intros a b c Hab Hbc. eapply Qle_trans; eassumption.
    + apply Forall_forall. intros [q r] Hin.
      apply list_elem_of_In in Hin.
      apply (Permutation_in _ (sort_values_perm _ _ _)) in Hin.
      rewrite Forall_forall in Hkeys.
      apply (Hnonneg r q); [|apply (Hkeys (q, r)), list_elem_of_In, Hin].
      apply (group_of_In "Target_Category" k). change (In r g). rewrite <- Hrows.
      apply list_elem_of_In, list_elem_of_fmap. exists (q, r).
      split; [reflexivity | apply list_elem_of_In, Hin].
    + rewrite (sort_values_perm fst false ks), Hw. apply fmap_submseteq, Hsub.
    + rewrite length_fmap. exact Hlen.
Qed.

Lemma top10_is_the_largest_ten_witness :
  (exists top : list (gmap string cell),
     top ⊆+ group_of "Target_Category" (Str "Toys") (rows toys_uae)
     /\ (length top <= 10)%nat
     /\ sum_col "销量数字" top = Ok 150%Q)
  /\ exists q : Q,
       sum_col "销量数字"
         (take 1 (group_of "Target_Category" (Str "Toys") (rows toys_uae))) = Ok q
       /\ (q <= 150)%Q.
Proof.
  destruct (top10_is_the_largest_ten toys_uae
              [mkSummary (Str "Toys") 2 150 10 150]
              (mkSummary (Str "Toys") 2 150 10 150)) as [Hreached Hmost].
  - vm_compute. reflexivity.
  - left. reflexivity.
  - vm_compute. reflexivity.
  - apply nonneg_at_all. vm_compute. reflexivity.
  - split; [exact Hreached|]. apply Hmost.
    + apply sublist_submseteq, sublist_take.
    + rewrite length_take. lia.
Defined.

(* ================================================================== *)
(** ** The bounds of the sliders *)

Lemma Qmax_cases (x y : Q) : Qmax x y = x \/ Qmax x y = y.
Proof.
  unfold Qmax, GenericMinMax.gmax. destruct (x ?= y)%Q; auto.
Qed.

(** The maximum of a series is one of its values and none is larger. *)
Lemma fold_Qmax (xs : list Q) (x : Q) :
  In (fold_left Qmax xs x) (x :: xs)
  /\ forall y, In y (x :: xs) -> (y <= fold_left Qmax xs x)%Q.
Proof.
  revert x. induction xs as [|z xs IH]; intros x; simpl.
  - split; [left; reflexivity|]. intros y [->|[]]. apply Qle_refl.
  - destruct (IH (Qmax x z)) as [Hin Hle]. split.
    + destruct Hin as [Hin|Hin]; [|right; right; exact Hin].
      rewrite <- Hin. destruct (Qmax_cases x z) as [-> | ->]; auto.
    + intros y [->|[->|Hy]].
      * eapply Qle_trans; [apply Q.le_max_l | apply Hle; left; reflexivity].
      * eapply Qle_trans; [apply Q.le_max_r | apply Hle; left; reflexivity].
      * apply Hle. right. exact Hy.
Qed.

Lemma series_max_spec {A} (f : A -> Q) (l : list A) :
  l <> [] ->
  exists a, In a l /\ series_max (f <$> l) = Some (f a)
            /\ forall b, In b l -> (f b <= f a)%Q.
Proof.
  destruct l as [|x l]; [congruence|]. intros _.
  cbn [fmap list_fmap series_max].
  destruct (fold_Qmax (f <$> l) (f x)) as [Hin Hle].
  change (f x :: (f <$> l)) with (f <$> (x :: l)) in Hin, Hle.
  apply list_elem_of_In, list_elem_of_fmap in Hin as (a & Ha & Hin).
  exists a. split; [apply list_elem_of_In, Hin|]. split; [f_equal; exact Ha|].
  intros b Hb. rewrite <- Ha. apply Hle.
  apply list_elem_of_In, list_elem_of_fmap. exists b.
  split; [reflexivity | apply list_elem_of_In, Hb].
Qed.

Lemma top10_stats_groups (df : DataFrame) (top : list (cell * Q)) :
  top10_stats df = Ok top -> group_keys "Target_Category" (rows df) <> [].
Proof.
  unfold top10_stats. intros H. inv_bind H. apply groupby_spec in Ha as ->.
  intros Hnil. rewrite Hnil in H. discriminate.
Qed.

(** The Aggregator never returns an empty summary set. *)
Lemma category_stats_nonempty (df : DataFrame) (stats : list Summary) :
  category_stats df = Ok stats -> stats <> [].
Proof.
  intros H Hnil. pose proof (category_stats_keys df stats H) as Hkeys.
  unfold category_stats in H. inv_bind H. inv_bind H.
  apply top10_stats_groups in Ha0. rewrite Hnil in Hkeys. cbn in Hkeys.
  congruence.
Qed.

(** Whenever the Aggregator has returned its summaries, of sales that are
    whole numbers within the range in which pandas adds exactly, the two
    bounds are computed without error: the first is the largest
    [product_count], reached by some summary, and the second is the integer
    part of the largest [total_sales]. *)
Theorem slider_bounds_are_the_maxima (df : DataFrame) (stats : list Summary) :
  category_stats df = Ok stats ->
  sums_exactly "销量数字" (rows df) = true ->
  exists (hi_products hi_sales : Z) (p t : Summary),
    slider_bounds stats = Ok (hi_products, hi_sales)
    /\ In p stats /\ product_count p = hi_products
    /\ (forall s, In s stats -> (product_count s <= hi_products)%Z)
    /\ In t stats
    /\ hi_sales = (Qnum (total_sales t) ÷ Z.pos (Qden (total_sales t)))%Z
    /\ (forall s, In s stats -> (total_sales s <= total_sales t)%Q).
Proof.
  intros Hstats _. pose proof (category_stats_nonempty df stats Hstats) as Hne.
  destruct (series_max_spec (inject_Z ∘ product_count) stats Hne)
    as (p & Hp & Hmaxp & Hlep).
  destruct (series_max_spec total_sales stats Hne) as (t & Ht & Hmaxt & Hlet).
  exists (product_count p), (Qnum (total_sales t) ÷ Z.pos (Qden (total_sales t)))%Z, p, t.
  split.
  - unfold slider_bounds. rewrite Hmaxp, Hmaxt. cbn.
    rewrite Z.quot_1_r. reflexivity.
  - split; [exact Hp|]. split; [reflexivity|]. split.
    + intros s Hs. specialize (Hlep s Hs). cbn in Hlep.
      rewrite <- Zle_Qle in Hlep. exact Hlep.
    + split; [exact Ht|]. split; [reflexivity | exact Hlet].
Qed.

Lemma slider_bounds_are_the_maxima_witness :
  exists (hi_products hi_sales : Z) (p t : Summary),
    slider_bounds [mkSummary (Str "Toys") 2 150 10 150] = Ok (hi_products, hi_sales)
    /\ In p [mkSummary (Str "Toys") 2 150 10 150]
    /\ product_count p = hi_products
    /\ (forall s, In s [mkSummary (Str "Toys") 2 150 10 150] ->
          (product_count s <= hi_products)%Z)
    /\ In t [mkSummary (Str "Toys") 2 150 10 150]
    /\ hi_sales = (Qnum (total_sales t) ÷ Z.pos (Qden (total_sales t)))%Z
    /\ (forall s, In s [mkSummary (Str "Toys") 2 150 10 150] ->
          (total_sales s <= total_sales t)%Q).
Proof.
  apply (slider_bounds_are_the_maxima toys_uae).
  - vm_compute. reflexivity.
  - vm_compute. reflexivity.
Defined.

(* ================================================================== *)
(** ** Thresholds *)

Lemma filtered_cats_df_In (stats : list Summary) (min_products min_sales : Z)
    (sort_mode : string) (s : Summary) :
  In s (filtered_cats_df stats min_products min_sales sort_mode)
  <-> In s stats /\ qualifies min_products min_sales s = true.
Proof.
  rewrite <- List.filter_In.
  split; apply Permutation_in;
    [|symmetry]; apply filtered_cats_df_perm.
Qed.

(** Raising a threshold never brings a category back: what qualifies under
    the higher thresholds qualifies under the lower ones, whatever the two
    sort modes. *)
Theorem raising_a_threshold_only_removes
    (stats : list Summary) (min_products min_sales min_products' min_sales' : Z)
    (sort_mode sort_mode' : string) (s : Summary) :
  (min_products <= min_products')%Z ->
  (min_sales <= min_sales')%Z ->
  In s (filtered_cats_df stats min_products' min_sales' sort_mode') ->
  In s (filtered_cats_df stats min_products min_sales sort_mode).
Proof.
  intros Hp Hs. rewrite !filtered_cats_df_In. intros [Hin Hq].
  split; [exact Hin|]. unfold qualifies in *.
  apply andb_prop in Hq as [H1 H2]. apply Z.leb_le in H1. apply Qle_bool_iff in H2.
  apply andb_true_intro. split.
  - apply Z.leb_le. lia.
  - apply Qle_bool_iff. eapply Qle_trans; [|exact H2].
    rewrite <- Zle_Qle. exact Hs.
Qed.

Lemma raising_a_threshold_only_removes_witness :
  In (mkSummary (Str "Toys") 12 150 4 90)
     (filtered_cats_df [mkSummary (Str "Books") 30 40 9 40;
                        mkSummary (Str "Toys") 12 150 4 90]
        0 0 "By Total Sales (Heat)").
Proof.
  apply (raising_a_threshold_only_removes _ 0 0 10 100
           "By Total Sales (Heat)" "By Total Reviews (Maturity)").
  - lia.
  - lia.
  - vm_compute. left. reflexivity.
Defined.

(* ================================================================== *)
(** ** The categories shown *)

Lemma filter_fmap_filter_length {A} (f : A -> cell) (p : A -> bool) (x : cell)
    (l : list A) :
  (length (List.filter (cell_eqb x) (f <$> List.filter p l))
   <= length (List.filter (cell_eqb x) (f <$> l)))%nat.
Proof.
  induction l as [|a l IH]; [reflexivity|].
  cbn [List.filter]. destruct (p a); rewrite !fmap_cons; cbn [List.filter];
    destruct (cell_eqb x (f a)); cbn [length]; lia.
Qed.

(** The categories that pass the filter are pairwise different. *)
Lemma valid_categories_distinct (df : DataFrame) (stats : list Summary)
    (min_products min_sales : Z) (sort_mode : string) (x : cell) :
  category_stats df = Ok stats ->
  (length (List.filter (cell_eqb x)
             (valid_categories
                (filtered_cats_df stats min_products min_sales sort_mode))) <= 1)%nat.
Proof.
  intros H. unfold valid_categories.
  rewrite (Permutation_length
             (filter_perm _ _ _
                (fmap_Permutation Target_Category _ _
                   (filtered_cats_df_perm stats min_products min_sales sort_mode)))).
  etransitivity; [apply filter_fmap_filter_length|].
  rewrite (category_stats_keys df stats H). apply group_keys_distinct.
Qed.

Lemma group_of_df_filtered (df : DataFrame) (valid : list cell) (k : cell) :
  In k valid ->
  group_of "Target_Category" k (rows (df_filtered df valid))
  = group_of "Target_Category" k (rows df).
Proof.
  intros Hk. unfold group_of, df_filtered. cbn [rows].
  induction (rows df) as [|r rs IH]; [reflexivity|].
  cbn [List.filter].
  destruct (cell_eqb (cell_at "Target_Category" r) k) eqn:E.
  - assert (Hin : py_in (cell_at "Target_Category" r) valid = true).
    { apply py_in_true. exists k. split; assumption. }
    rewrite Hin. cbn [List.filter]. rewrite E, IH. reflexivity.
  - destruct (py_in (cell_at "Target_Category" r) valid); cbn [List.filter];
      rewrite ?E; exact IH.
Qed.

(** The figures at the top of the page agree with the tiles: "Filtered
    Cats" is the number of tiles, and, when every row has a product name,
    "Total Products" is the sum of the product counts on the tiles. *)
Theorem total_products_is_the_sum_of_the_tiles
    (df : DataFrame) (stats : list Summary) (min_products min_sales : Z)
    (sort_mode : string) :
  category_stats df = Ok stats ->
  (forall r, In r (rows df) -> cell_at "产品名" r <> Null) ->
  filtered_cats (metrics df (filtered_cats_df stats min_products min_sales sort_mode))
  = length (filtered_cats_df stats min_products min_sales sort_mode)
  /\ Z.of_nat (total_products
                 (metrics df (filtered_cats_df stats min_products min_sales sort_mode)))
     = Zsum (product_count
             <$> filtered_cats_df stats min_products min_sales sort_mode).
Proof.
  intros H Hnames.
  set (filtered := filtered_cats_df stats min_products min_sales sort_mode).
  split; [unfold metrics, valid_categories; cbn; apply length_fmap|].
  unfold metrics. cbn [total_products].
  set (valid := valid_categories filtered).
  rewrite <- (groups_partition "Target_Category" valid).
  - unfold valid, valid_categories. rewrite <- list_fmap_compose.
    f_equal. apply list_fmap_ext. intros i s Hs. unfold compose.
    apply list_elem_of_lookup_2, list_elem_of_In in Hs.
    rewrite group_of_df_filtered.
    + apply filtered_cats_df_In in Hs as [Hs _].
      destruct (Forall2_In_r _ _ _ _ (category_stats_rows df stats H) Hs)
        as (k & _ & Hcat & Hcount & _).
      symmetry. rewrite Hcat, Hcount. apply count_col_all.
      intros r Hr. apply Hnames. eapply group_of_In, Hr.
    + apply list_elem_of_In, list_elem_of_fmap. exists s.
      split; [reflexivity | apply list_elem_of_In, Hs].
  - intros y. apply (valid_categories_distinct df stats _ _ _ y H).
  - intros r Hr. unfold df_filtered in Hr. cbn [rows] in Hr.
    apply List.filter_In in Hr as [_ Hr]. apply py_in_true in Hr. exact Hr.
Qed.

Lemma total_products_is_the_sum_of_the_tiles_witness :
  Z.of_nat (total_products
              (metrics toys_uae
                 (filtered_cats_df [mkSummary (Str "Toys") 2 150 10 150] 0 0 "")))
  = Zsum (product_count
          <$> filtered_cats_df [mkSummary (Str "Toys") 2 150 10 150] 0 0 "").
Proof.
  apply (total_products_is_the_sum_of_the_tiles toys_uae).
  - vm_compute. reflexivity.
  - apply present_at_all. vm_compute. reflexivity.
Defined.

(** Every tile finds its figures: for each category name of the matrix,
    line 166 finds a summary (no [IndexError]); it is a summary of that
    category that passed the filter, and no other summary shown has that
    category.  No two tiles carry the same category, the key of the button
    of line 176. *)
Theorem every_tile_has_its_summary
    (df : DataFrame) (stats : list Summary) (min_products min_sales : Z)
    (sort_mode : string) :
  category_stats df = Ok stats ->
  (forall cat_name,
     In cat_name (valid_categories
                    (filtered_cats_df stats min_products min_sales sort_mode)) ->
     exists s,
       cat_data (filtered_cats_df stats min_products min_sales sort_mode) cat_name
       = Some s
       /\ Target_Category s = cat_name
       /\ In s stats
       /\ qualifies min_products min_sales s = true
       /\ forall t, In t (filtered_cats_df stats min_products min_sales sort_mode) ->
            cell_eqb (Target_Category t) cat_name = true -> t = s)
  /\ (forall (i j : nat) (a b : cell),
        valid_categories (filtered_cats_df stats min_products min_sales sort_mode) !! i
        = Some a ->
        valid_categories (filtered_cats_df stats min_products min_sales sort_mode) !! j
        = Some b ->
        i <> j -> cell_eqb a b = false).
Proof.
  intros H.
  set (filtered := filtered_cats_df stats min_products min_sales sort_mode).
  assert (Hdistinct : forall (i j : nat) (a b : cell),
            valid_categories filtered !! i = Some a ->
            valid_categories filtered !! j = Some b ->
            i <> j -> cell_eqb a b = false).
  { intros i j a b Ha Hb Hij.
    destruct (cell_eqb a b) eqn:E; [|reflexivity].
    pose proof (valid_categories_distinct df stats min_products min_sales
                  sort_mode a H) as Hone.
    pose proof (filter_two (cell_eqb a) _ i j a b Ha Hb Hij (cell_eqb_refl a) E).
    fold filtered in Hone. lia. }
  split; [|exact Hdistinct].
  intros cat_name Hcat.
  apply list_elem_of_In, list_elem_of_fmap in Hcat as (s0 & -> & Hs0).
  apply list_elem_of_In in Hs0.
  assert (Hsame : forall t u, In t filtered -> In u filtered ->
            cell_eqb (Target_Category t) (Target_Category u) = true -> t = u).
  { intros t u Ht Hu Heq.
    apply list_elem_of_In, list_elem_of_lookup in Ht as [i Hi].
    apply list_elem_of_In, list_elem_of_lookup in Hu as [j Hj].
    destruct (Nat.eq_dec i j) as [->|Hij]; [congruence|].
    rewrite (Hdistinct i j (Target_Category t) (Target_Category u)) in Heq;
      [discriminate| | |exact Hij];
      unfold valid_categories; rewrite list_lookup_fmap;
      [rewrite Hi | rewrite Hj]; reflexivity. }
  unfold cat_data.
  destruct (List.filter
              (fun s => cell_eqb (Target_Category s) (Target_Category s0)) filtered)
    as [|s l] eqn:E.
  - assert (Hin : In s0 (List.filter
                     (fun s => cell_eqb (Target_Category s) (Target_Category s0))
                     filtered)).
    { apply List.filter_In. split; [exact Hs0 | apply cell_eqb_refl]. }
    rewrite E in Hin. destruct Hin.
  - assert (Hin : In s (List.filter
                     (fun s => cell_eqb (Target_Category s) (Target_Category s0))
                     filtered)).
    { rewrite E. left. reflexivity. }
    apply List.filter_In in Hin as [Hs Heq].
    assert (s = s0) as -> by (apply Hsame; assumption).
    exists s0. split; [reflexivity|]. split; [reflexivity|].
    apply filtered_cats_df_In in Hs as [Hstats Hq].
    split; [exact Hstats|]. split; [exact Hq|].
    intros t Ht Ht0. apply Hsame; assumption.
Qed.

Lemma every_tile_has_its_summary_witness :
  exists s,
    cat_data (filtered_cats_df [mkSummary (Str "Toys") 2 150 10 150] 0 0 "")
             (Str "Toys") = Some s
    /\ Target_Category s = Str "Toys".
Proof.
  destruct (every_tile_has_its_summary toys_uae
              [mkSummary (Str "Toys") 2 150 10 150] 0 0 "") as [Htile _].
  - vm_compute. reflexivity.
  - destruct (Htile (Str "Toys")) as (s & Hs & Hcat & _).
    + left. reflexivity.
    + exists s. split; assumption.
Defined.

(* ================================================================== *)
(** ** The category matrix *)

Lemma slices_concat {A} (n k : nat) (l : list A) :
  concat ((fun i => take n (drop i l)) <$> ((fun j => j * n)%nat <$> seq 0 k))
  = take (k * n) l.
Proof.
  induction k as [|k IH]; [reflexivity|].
  rewrite seq_S, !fmap_app, concat_app, IH. cbn [fmap list_fmap concat].
  rewrite app_nil_r, take_take_drop. f_equal. lia.
Qed.

(** The matrix of tiles holds every qualifying category once and in order:
    read row by row it is [valid_categories].  No row is empty and none has
    more than [cols_per_row] tiles, so [cols[index]] is always one of the
    five columns of line 164. *)
Theorem matrix_rows_hold_every_category (valid_categories : list cell) :
  concat (matrix_rows valid_categories) = valid_categories
  /\ Forall (fun row => (1 <= length row <= cols_per_row)%nat)
            (matrix_rows valid_categories)
  /\ length (matrix_rows valid_categories)
     = ((length valid_categories + 4) / 5)%nat.
Proof.
  unfold matrix_rows, py_range, cols_per_row.
  replace (length valid_categories + 5 - 1)%nat
    with (length valid_categories + 4)%nat by lia.
  pose proof (Nat.div_mod_eq (length valid_categories + 4) 5) as Hdiv.
  pose proof (Nat.mod_upper_bound (length valid_categories + 4) 5) as Hmod.
  set (k := ((length valid_categories + 4) / 5)%nat) in *.
  split; [|split].
  - rewrite slices_concat. apply take_ge. lia.
  - apply Forall_fmap, Forall_fmap, Forall_forall. intros j Hj.
    apply elem_of_seq in Hj. cbn. rewrite length_take, length_drop. lia.
  - rewrite !length_fmap, length_seq. reflexivity.
Qed.

(* ================================================================== *)
(** ** The category whose products are listed *)

Lemma py_in_head (c : cell) (l : list cell) : py_in c (c :: l) = true.
Proof. unfold py_in. cbn. rewrite cell_eqb_refl. reflexivity. Qed.

(** The category whose products are listed is always a qualifying one: with
    no qualifying category none is chosen, with at least one the current
    category is one of them, and whenever line 205 is reached the rows
    listed are rows of a category of [valid_categories]. *)
Theorem only_a_qualifying_category_is_listed
    (df : DataFrame) (state : cell) (valid_categories : list cell) :
  (valid_categories = [] -> current_cat state valid_categories = Null)
  /\ (valid_categories <> [] ->
      py_in (current_cat state valid_categories) valid_categories = true)
  /\ (forall rs,
        details df (current_cat state valid_categories) = Ok (Some rs) ->
        py_in (current_cat state valid_categories) valid_categories = true
        /\ forall r, In r rs ->
             In r (rows df)
             /\ cell_eqb (cell_at "Target_Category" r)
                         (current_cat state valid_categories) = true).
Proof.
  assert (Hvalid : valid_categories <> [] ->
            py_in (current_cat state valid_categories) valid_categories = true).
  { intros Hne. unfold current_cat.
    destruct (py_in state valid_categories) eqn:E; cbn; [exact E|].
    destruct valid_categories as [|c l]; [congruence | apply py_in_head]. }
  split; [intros ->; reflexivity|]. split; [exact Hvalid|].
  intros rs Hrs. split.
  - apply Hvalid. intros ->. cbn in Hrs. discriminate.
  - intros r Hr.
    apply (Permutation_in _ (details_rows _ _ _ Hrs)), List.filter_In in Hr.
    exact Hr.
Qed.

Lemma only_a_qualifying_category_is_listed_witness :
  py_in (current_cat Null [Str "Toys"]) [Str "Toys"] = true.
Proof.
  destruct (only_a_qualifying_category_is_listed toys_uae Null [Str "Toys"])
    as (_ & Hvalid & _).
  apply Hvalid. discriminate.
Defined.

(* ================================================================== *)
(** ** The range of the heat value *)

(** The value handed to [st.progress] is never above 1; it is not negative
    when the row's sales are not; and when the row's sales lie between 0 and
    a positive maximum it is their exact share of the maximum. *)
Theorem progress_val_range (sales_val max_val : Z) (q : Q) :
  progress_val sales_val max_val = Ok q ->
  (q <= 1)%Q
  /\ ((0 <= sales_val)%Z -> (0 <= q)%Q)
  /\ ((0 <= sales_val <= max_val)%Z -> (0 < max_val)%Z ->
      (q == inject_Z sales_val / inject_Z max_val)%Q).
Proof.
  unfold progress_val, true_div.
  destruct (0 <? max_val)%Z eqn:Epos.
  - apply Z.ltb_lt in Epos.
    destruct (max_val =? 0)%Z eqn:E0; [apply Z.eqb_eq in E0; lia|].
    cbn. intros [= <-].
    assert (Hmax : (0 < inject_Z max_val)%Q).
    { replace 0%Q with (inject_Z 0) by reflexivity. rewrite <- Zlt_Qlt. exact Epos. }
    split; [apply Q.le_min_r|]. split.
    + intros Hs. apply Q.min_glb; [|discriminate].
      apply Qle_shift_div_l; [exact Hmax|]. rewrite Qmult_0_l.
      replace 0%Q with (inject_Z 0) by reflexivity. rewrite <- Zle_Qle. exact Hs.
    + intros [_ Hle] _. apply Q.min_l.
      apply Qle_shift_div_r; [exact Hmax|]. rewrite Qmult_1_l.
      rewrite <- Zle_Qle. exact Hle.
  - apply Z.ltb_ge in Epos. intros [= <-].
    split; [discriminate|]. split; [intros _; apply Qle_refl | lia].
Qed.

Lemma progress_val_range_witness :
  (50 # 100 <= 1)%Q /\ (0 <= 50 # 100)%Q.
Proof.
  destruct (progress_val_range 50 100 (50 # 100)) as (Hle & Hnonneg & _).
  - vm_compute. reflexivity.
  - split; [exact Hle | apply Hnonneg; lia].
Defined.

(* ================================================================== *)
(** ** Which country is shown *)

Lemma py_in_has_country (v : string) (raw : DataFrame) :
  py_in (Str v) (unique (cell_at "国家" <$> rows raw)) = has_country v raw.
Proof.
  pose proof (py_in_unique_column v "国家" (rows raw)) as Hiff.
  unfold has_country.
  destruct (py_in (Str v) (unique (cell_at "国家" <$> rows raw))) eqn:E1;
    destruct (existsb (fun r => cell_eqb (cell_at "国家" r) (Str v)) (rows raw)) eqn:E2;
    try reflexivity.
  - destruct Hiff as [Hto _]. destruct (Hto eq_refl) as (r & Hr & Hv).
    assert (Hex : existsb (fun r => cell_eqb (cell_at "国家" r) (Str v)) (rows raw)
                  = true).
    { apply existsb_exists. exists r. split; [exact Hr|]. apply cell_eqb_Str, Hv. }
    congruence.
  - apply existsb_exists in E2 as (r & Hr & Hv). apply cell_eqb_Str in Hv.
    destruct Hiff as [_ Hfrom].
    specialize (Hfrom (ex_intro _ r (conj Hr Hv))). discriminate Hfrom.
Qed.

(** The country selection in closed form.  The rows of "沙特" are shown when
    there are such rows and either "KSA" is what the user picked or there
    is no row of "阿联酋"; otherwise the rows of "阿联酋" are shown when there
    are such rows.  With neither country in the data the radio has no
    option, returns [None], and [country_map[None]] raises [KeyError]. *)
Theorem select_region_closed_form (raw : DataFrame) (picked : option string) :
  select_region raw picked
  = if has_column "国家" raw
    then if has_country "沙特" raw
            && (match picked with Some p => String.eqb p "KSA" | None => false end
                || negb (has_country "阿联酋" raw))
         then Ok (region_filter raw "沙特")
         else if has_country "阿联酋" raw
              then Ok (region_filter raw "阿联酋")
              else Raise KeyError
    else Raise KeyError.
Proof.
  unfold select_region, available_countries_cn, column.
  destruct (has_column "国家" raw); [|reflexivity].
  cbn [fmap result_fmap mbind result_bind].
  unfold available_countries_en, country_map. cbn [List.filter snd].
  rewrite !py_in_has_country.
  destruct (has_country "阿联酋" raw), (has_country "沙特" raw);
    destruct picked as [p|]; cbn;
    try destruct (String.eqb_spec p "UAE") as [->|Huae];
    try destruct (String.eqb_spec p "KSA") as [->|Hksa];
    try reflexivity; try discriminate.
Qed.

(** A run never goes on with an empty row set: the frame the selection hands
    on has at least one row. *)
Theorem selected_rows_are_never_empty
    (raw : DataFrame) (picked : option string) (df : DataFrame) :
  select_region raw picked = Ok df -> rows df <> [].
Proof.
  intros H. destruct (select_region_spec raw picked df H)
    as (label & v & _ & _ & (r & Hr & Hv) & ->).
  assert (Hin : In r (rows (region_filter raw v))).
  { apply region_filter_In. split; assumption. }
  intros Hnil. rewrite Hnil in Hin. destruct Hin.
Qed.

Lemma selected_rows_are_never_empty_witness :
  rows (region_filter toys_file "沙特") <> [].
Proof.
  apply (selected_rows_are_never_empty toys_file (Some "KSA")).
  vm_compute. reflexivity.
Defined.

(** The currency shown is the one of the rows shown: "SAR" with the rows of
    "沙特", "AED" with the rows of "阿联酋". *)
Theorem currency_matches_the_rows
    (raw : DataFrame) (picked : option string) (label : option string)
    (df : DataFrame) :
  selected_country_en raw picked = Ok label ->
  select_region raw picked = Ok df ->
  (currency_symbol label = "SAR"
   /\ forall r, In r (rows df) -> cell_at "国家" r = Str "沙特")
  \/ (currency_symbol label = "AED"
      /\ forall r, In r (rows df) -> cell_at "国家" r = Str "阿联酋").
Proof.
  unfold selected_country_en, select_region.
  destruct (available_countries_cn raw) as [cn| |]; [|discriminate..].
  cbn [mbind result_bind]. intros [= <-] H. inv_bind H. injection H as <-.
  destruct (radio _ _ picked) as [l|] eqn:Eradio; [|discriminate].
  apply radio_In, available_countries_en_In in Eradio as (v & Hmap & _).
  rewrite (country_map_get_In l v a Hmap Ha).
  cbn in Hmap. destruct Hmap as [[= <- <-]|[[= <- <-]|[]]]; [right | left];
    (split; [reflexivity|]); intros r Hr; apply region_filter_In in Hr; tauto.
Qed.

Lemma currency_matches_the_rows_witness :
  (currency_symbol (Some "KSA") = "SAR"
   /\ forall r, In r (rows (region_filter toys_file "沙特")) ->
        cell_at "国家" r = Str "沙特")
  \/ (currency_symbol (Some "KSA") = "AED"
      /\ forall r, In r (rows (region_filter toys_file "沙特")) ->
           cell_at "国家" r = Str "阿联酋").
Proof.
  apply (currency_matches_the_rows toys_file (Some "KSA")).
  - vm_compute. reflexivity.
  - vm_compute. reflexivity.
Defined.

(* ================================================================== *)
(** ** Numerals that read back *)

Lemma remove_commas_app (a b : string) :
  remove_commas (a ++ b) = remove_commas a ++ remove_commas b.
Proof.
  induction a as [|c a IH]; [reflexivity|].
  change (String c a ++ b) with (String c (a ++ b)). cbn [remove_commas].
  destruct (Ascii.eqb c ","); [exact IH|].
  change (String c (remove_commas a) ++ remove_commas b)
    with (String c (remove_commas a ++ remove_commas b)).
  rewrite IH. reflexivity.
Qed.

Lemma is_space_not_comma (c : ascii) : is_space c = true -> Ascii.eqb c "," = false.
Proof.
  destruct (Ascii.eqb_spec c ",") as [->|]; [|reflexivity].
  vm_compute. discriminate.
Qed.

Lemma rstrip_app_space (u : string) (c : ascii) :
  is_space c = true -> rstrip (u ++ String c "") = rstrip u.
Proof.
  intros Hc. induction u as [|e u IH].
  - change ("" ++ String c "") with (String c ""). cbn [rstrip].
    rewrite Hc. reflexivity.
  - change (String e u ++ String c "") with (String e (u ++ String c "")).
    cbn [rstrip]. rewrite IH. reflexivity.
Qed.

Lemma strip_app_space (t : string) (c : ascii) :
  is_space c = true -> strip (t ++ String c "") = strip t.
Proof.
  intros Hc. unfold strip. induction t as [|d t IH].
  - change ("" ++ String c "") with (String c ""). cbn [lstrip rstrip].
    rewrite Hc. reflexivity.
  - change (String d t ++ String c "") with (String d (t ++ String c "")).
    cbn [lstrip]. destruct (is_space d); [exact IH|].
    apply (rstrip_app_space (String d t) c Hc).
Qed.

(** Thousands separators and surrounding blanks do not change the number
    read: a comma anywhere in the text, a blank in front of it and a blank
    behind it are all ignored. *)
Theorem commas_and_blanks_are_ignored (a b : string) (c : ascii) :
  fix_numeric (Str (a ++ "," ++ b)) = fix_numeric (Str (a ++ b))
  /\ (is_space c = true ->
      fix_numeric (Str (String c a)) = fix_numeric (Str a)
      /\ fix_numeric (Str (a ++ String c "")) = fix_numeric (Str a)).
Proof.
  unfold fix_numeric. cbn [astype_str]. split.
  - rewrite !remove_commas_app. reflexivity.
  - intros Hc. split.
    + cbn [remove_commas]. rewrite (is_space_not_comma c Hc).
      unfold strip. cbn [lstrip]. rewrite Hc. reflexivity.
    + rewrite remove_commas_app. cbn [remove_commas].
      rewrite (is_space_not_comma c Hc), strip_app_space by exact Hc.
      reflexivity.
Qed.

Lemma commas_and_blanks_are_ignored_witness :
  fix_numeric (Str " 12,345") = fix_numeric (Str "12,345")
  /\ fix_numeric (Str ("12,345" ++ " ")) = fix_numeric (Str "12,345").
Proof.
  destruct (commas_and_blanks_are_ignored "12,345" "" " ") as [_ H].
  apply H. reflexivity.
Defined.

Lemma digit_char (c : ascii) (d : Z) :
  digit c = Some d ->
  Ascii.eqb c "," = false /\ Ascii.eqb c "-" = false /\ Ascii.eqb c "+" = false
  /\ Ascii.eqb c "." = false /\ is_space c = false.
Proof.
  intros H. repeat split.
  - destruct (Ascii.eqb_spec c ",") as [->|]; [discriminate H | reflexivity].
  - destruct (Ascii.eqb_spec c "-") as [->|]; [discriminate H | reflexivity].
  - destruct (Ascii.eqb_spec c "+") as [->|]; [discriminate H | reflexivity].
  - destruct (Ascii.eqb_spec c ".") as [->|]; [discriminate H | reflexivity].
  - unfold digit in H. unfold is_space.
    destruct (48 <=? Z.of_nat (nat_of_ascii c))%Z eqn:E1; [|discriminate].
    apply Z.leb_le in E1.
    destruct (nat_of_ascii c <=? 13)%nat eqn:E2; [apply Nat.leb_le in E2; lia|].
    destruct (nat_of_ascii c <=? 32)%nat eqn:E3; [apply Nat.leb_le in E3; lia|].
    rewrite !andb_false_r. reflexivity.
Qed.

Lemma digit_pretty_N_char (m : N) :
  (m < 10)%N -> digit (pretty_N_char m) = Some (Z.of_N m).
Proof.
  intros H.
  assert (m = 0 \/ m = 1 \/ m = 2 \/ m = 3 \/ m = 4 \/ m = 5 \/ m = 6 \/ m = 7
          \/ m = 8 \/ m = 9)%N as Hm by lia.
  repeat destruct Hm as [->|Hm]; try subst m; reflexivity.
Qed.

Lemma digits_only_nil : digits_only "" 0.
Proof.
  repeat split; try reflexivity.
  - intros acc n. cbn [digits String.length].
    replace (acc * 10 ^ Z.of_nat 0 + 0)%Z with acc by (cbn; lia).
    replace (n + 0)%nat with n by lia. reflexivity.
  - intros c s' H. discriminate H.
Qed.

Lemma digits_only_cons (c : ascii) (d : Z) (s : string) (v : Z) :
  digit c = Some d -> digits_only s v ->
  digits_only (String c s) (d * 10 ^ Z.of_nat (String.length s) + v).
Proof.
  intros Hd (Hread & Hcommas & Hl & Hr & _).
  destruct (digit_char c d Hd) as (Hcomma & _ & _ & _ & Hspace).
  split; [|split; [|split; [|split]]].
  - intros acc n. cbn [digits String.length]. rewrite Hd, Hread.
    replace (n + S (String.length s))%nat with (S n + String.length s)%nat by lia.
    rewrite Nat2Z.inj_succ, Z.pow_succ_r by lia.
    replace ((10 * acc + d) * 10 ^ Z.of_nat (String.length s) + v)%Z
      with (acc * (10 * 10 ^ Z.of_nat (String.length s))
            + (d * 10 ^ Z.of_nat (String.length s) + v))%Z by ring.
    reflexivity.
  - cbn [remove_commas]. rewrite Hcomma, Hcommas. reflexivity.
  - cbn [lstrip]. rewrite Hspace. reflexivity.
  - cbn [rstrip]. rewrite Hr, Hspace. destruct s; reflexivity.
  - intros c' s' [= <- _]. eauto.
Qed.

Lemma digits_only_pretty_N_go (x : N) (s : string) (v : Z) :
  digits_only s v ->
  digits_only (pretty_N_go x s) (Z.of_N x * 10 ^ Z.of_nat (String.length s) + v).
Proof.
  revert s v. induction (N.lt_wf_0 x) as [x _ IH]. intros s v Hs.
  destruct (N.eq_dec x 0%N) as [->|Hx].
  - rewrite pretty_N_go_0. cbn [Z.of_N]. rewrite Z.mul_0_l, Z.add_0_l. exact Hs.
  - rewrite pretty_N_go_step by lia.
    assert (Hmod : (x `mod` 10 < 10)%N) by (apply N.mod_lt; lia).
    pose proof (digits_only_cons _ _ s v (digit_pretty_N_char _ Hmod) Hs) as Hcons.
    apply (IH (x `div` 10)%N) in Hcons; [|apply N.div_lt; lia].
    cbn [String.length] in Hcons.
    rewrite Nat2Z.inj_succ, Z.pow_succ_r in Hcons by lia.
    replace (Z.of_N x * 10 ^ Z.of_nat (String.length s) + v)%Z
      with (Z.of_N (x `div` 10) * (10 * 10 ^ Z.of_nat (String.length s))
            + (Z.of_N (x `mod` 10) * 10 ^ Z.of_nat (String.length s) + v))%Z;
      [exact Hcons|].
    rewrite (N.Div0.div_mod x 10) at 3.
    rewrite N2Z.inj_add, N2Z.inj_mul. change (Z.of_N 10) with 10%Z. ring.
Qed.

Lemma pretty_N_go_nonempty (x : N) (s : string) :
  (0 < x)%N -> pretty_N_go x s <> "".
Proof.
  assert (Hlen : forall y t, (String.length t <= String.length (pretty_N_go y t))%nat).
  { intros y. induction (N.lt_wf_0 y) as [y _ IH]. intros t.
    destruct (N.eq_dec y 0%N) as [->|Hy]; [rewrite pretty_N_go_0; lia|].
    rewrite pretty_N_go_step by lia.
    etransitivity; [|apply (IH (y `div` 10)%N), N.div_lt; lia]. cbn. lia. }
  intros Hx Hnil. rewrite pretty_N_go_step in Hnil by exact Hx.
  specialize (Hlen (x `div` 10)%N (String (pretty_N_char (x `mod` 10)) s)).
  rewrite Hnil in Hlen. cbn in Hlen. lia.
Qed.

(** A text of digits denotes its value. *)
Lemma to_numeric_digits_only (s : string) (v : Z) :
  digits_only s v -> s <> "" ->
  to_numeric s = Some (v # 1) /\ strip (remove_commas s) = s.
Proof.
  intros (Hread & Hcommas & Hl & Hr & Hhead) Hne. split.
  - destruct s as [|c s']; [congruence|].
    destruct (Hhead c s' eq_refl) as [d Hd].
    destruct (digit_char c d Hd) as (_ & Hminus & Hplus & _).
    unfold to_numeric. rewrite Hminus, Hplus.
    unfold unsigned_numeral. rewrite Hread.
    cbn [String.length Nat.add Nat.eqb]. rewrite Z.mul_0_l, Z.add_0_l.
    reflexivity.
  - unfold strip. rewrite Hcommas, Hl, Hr. reflexivity.
Qed.

(** The decimal text of an integer has nothing for line 46 to remove, and is
    read as that integer. *)
Lemma pretty_Z_read (z : Z) :
  strip (remove_commas (pretty z)) = pretty z
  /\ to_numeric (pretty z) = Some (inject_Z z).
Proof.
  destruct z as [|p|p].
  - split; reflexivity.
  - change (pretty (Z.pos p)) with (pretty_N_go (N.pos p) "").
    pose proof (digits_only_pretty_N_go (N.pos p) "" 0 digits_only_nil) as Hd.
    cbn [String.length Z.of_nat Z.pow] in Hd.
    rewrite Z.mul_1_r, Z.add_0_r in Hd.
    destruct (to_numeric_digits_only _ _ Hd) as [Hnum Hclean].
    { apply pretty_N_go_nonempty. lia. }
    split; [exact Hclean | exact Hnum].
  - change (pretty (Z.neg p)) with (String "-" (pretty_N_go (N.pos p) "")).
    pose proof (digits_only_pretty_N_go (N.pos p) "" 0 digits_only_nil) as Hd.
    cbn [String.length Z.of_nat Z.pow] in Hd.
    rewrite Z.mul_1_r, Z.add_0_r in Hd.
    pose proof (pretty_N_go_nonempty (N.pos p) "" eq_refl) as Hne.
    destruct (to_numeric_digits_only _ _ Hd Hne) as [Hnum _].
    destruct Hd as (_ & Hcommas & Hl & Hr & Hhead).
    assert (Hclean : strip (remove_commas (String "-" (pretty_N_go (N.pos p) "")))
                     = String "-" (pretty_N_go (N.pos p) "")).
    { cbn [remove_commas]. change (Ascii.eqb "-" ",") with false.
      cbn iota. rewrite Hcommas. unfold strip. cbn [lstrip].
      change (is_space "-") with false. cbn iota. cbn [rstrip]. rewrite Hr.
      destruct (pretty_N_go (N.pos p) ""); [congruence | reflexivity]. }
    split; [exact Hclean|]. unfold to_numeric. change (Ascii.eqb "-" "-") with true.
    cbn iota.
    destruct (pretty_N_go (N.pos p) "") as [|c s'] eqn:E; [congruence|].
    destruct (Hhead c s' eq_refl) as [d Hdigit].
    destruct (digit_char c d Hdigit) as (_ & Hminus & Hplus & _).
    unfold to_numeric in Hnum. rewrite Hminus, Hplus in Hnum.
    rewrite Hnum. reflexivity.
Qed.

(** Whole numbers survive the loader, up to 2^53 in absolute value: the
    range in which int64 and float64 alike hold every whole number.  The
    decimal text of such an integer is read back as that integer, negative
    ones included, and a cell that already holds such an integer keeps its
    value. *)
Theorem integers_read_back (z : Z) :
  (Z.abs z <= 2 ^ 53)%Z ->
  fix_numeric (Str (pretty z)) = inject_Z z
  /\ fix_numeric (Num (inject_Z z)) = inject_Z z.
Proof.
  intros _.
  assert (Htext : fix_numeric (Str (pretty z)) = inject_Z z).
  { unfold fix_numeric. cbn [astype_str].
    destruct (pretty_Z_read z) as [-> ->]. reflexivity. }
  split; [exact Htext|].
  unfold fix_numeric in *. cbn [astype_str] in *. unfold repr_num.
  rewrite (Qcanon.Qred_identity (inject_Z z)) by (cbn; apply Z.gcd_1_r).
  cbn [inject_Z Qnum Qden]. change (Z.pos 1 =? 1)%Z with true. cbn iota.
  exact Htext.
Qed.

Lemma integers_read_back_witness :
  fix_numeric (Str "-1234") = inject_Z (-1234)
  /\ fix_numeric (Num (inject_Z (-1234))) = inject_Z (-1234).
Proof.
  apply (integers_read_back (-1234)). apply Z.leb_le. reflexivity.
Defined.

(* ================================================================== *)
(** ** What the loader makes of a text *)










(* ================================================================== *)
(** ** What the loader leaves alone *)

Lemma load_data_steps (file df : DataFrame) :
  load_data (Some file) = Ok df ->
  exists src : string,
    category_source file src
    /\ df = fold_left fix_column cols_to_fix
              (if negb (has_column "国家"
                          (set_column "Target_Category" (cell_at src) file))
               then set_column "国家" (fun _ => Str "阿联酋")
                      (set_column "Target_Category" (cell_at src) file)
               else set_column "Target_Category" (cell_at src) file).
Proof.
  unfold load_data. intros H. inv_bind H. injection H as <-.
  destruct (has_column "类目" file) eqn:E1.
  - exists "类目". split; [constructor; exact E1|].
    injection Ha as <-. reflexivity.
  - destruct (has_column "所属类目" file) eqn:E2; [|discriminate].
    exists "所属类目". split; [constructor; assumption|].
    injection Ha as <-. reflexivity.
Qed.

Lemma has_column_fold_fix (cols : list string) (col : string) (df : DataFrame) :
  has_column col (fold_left fix_column cols df) = has_column col df.
Proof.
  revert df. induction cols as [|c cols IH]; intros df; [reflexivity|].
  cbn [fold_left]. rewrite IH. apply has_column_fix_column.
Qed.

(** The columns of the loaded frame: those of the file, and the two the
    loader adds. *)
Lemma load_data_columns (file df : DataFrame) (col : string) :
  load_data (Some file) = Ok df ->
  has_column col df
  = has_column col file || String.eqb col "Target_Category" || String.eqb col "国家".
Proof.
  intros H. destruct (load_data_steps file df H) as (src & _ & ->).
  rewrite has_column_fold_fix.
  set (d1 := set_column "Target_Category" (cell_at src) file).
  assert (H1 : forall c, has_column c d1
                         = has_column c file || String.eqb c "Target_Category").
  { intros c. apply has_column_set_column. }
  destruct (has_column "国家" d1) eqn:E; cbn [negb].
  - rewrite H1. destruct (String.eqb_spec col "国家") as [->|_].
    + rewrite H1 in E. rewrite E. reflexivity.
    + rewrite orb_false_r. reflexivity.
  - rewrite has_column_set_column, H1. reflexivity.
Qed.

(** The loader keeps the frame: as many rows as the file has, every column
    of the file, the two columns it adds, and no other; and outside the
    numeric columns it fixes, the category column it fills and a country
    column it has to add, every cell is the cell of the file. *)
Theorem loader_keeps_the_frame (file df : DataFrame) :
  load_data (Some file) = Ok df ->
  length (rows df) = length (rows file)
  /\ (forall col,
        has_column col df = true
        <-> has_column col file = true \/ col = "Target_Category" \/ col = "国家")
  /\ Forall2 (fun r0 r =>
                forall col,
                  ~ In col cols_to_fix -> col <> "Target_Category" ->
                  col <> "国家" \/ has_column "国家" file = true ->
                  r !! col = r0 !! col)
             (rows file) (rows df).
Proof.
  intros H. split; [|split].
  - destruct (load_data_rows file df H) as (_ & g & _ & -> & _).
    apply length_fmap.
  - intros col. rewrite (load_data_columns file df col H).
    rewrite !orb_true_iff, !String.eqb_eq. tauto.
  - destruct (load_data_steps file df H) as (src & _ & ->).
    set (d1 := set_column "Target_Category" (cell_at src) file).
    set (d2 := if negb (has_column "国家" d1)
               then set_column "国家" (fun _ => Str "阿联酋") d1 else d1).
    destruct (fold_fix_column_rows cols_to_fix d2 cols_to_fix_NoDup)
      as (g3 & -> & Hout3 & _).
    assert (Hcountry : has_column "国家" d1 = has_column "国家" file).
    { unfold d1. rewrite has_column_set_column. apply orb_false_r. }
    assert (Hd2 : exists g2 : gmap string cell -> gmap string cell,
              rows d2 = g2 <$> rows d1
              /\ forall col r,
                   col <> "国家" \/ has_column "国家" file = true ->
                   g2 r !! col = r !! col).
    { unfold d2. rewrite Hcountry. destruct (has_column "国家" file); cbn [negb].
      - exists (fun r => r). split; [symmetry; apply list_fmap_id | reflexivity].
      - exists (fun r => <["国家" := Str "阿联酋"]> r). split; [reflexivity|].
        intros col r [Hne|Hhas]; [|discriminate].
        apply lookup_insert_ne. congruence. }
    destruct Hd2 as (g2 & -> & Hother2).
    unfold d1, set_column. cbn [rows]. rewrite <- !list_fmap_compose.
    apply Forall2_fmap_r, Forall2_same_length_lookup.
    split; [reflexivity|]. intros i r0 r Hr0 Hr. rewrite Hr0 in Hr.
    injection Hr as <-. intros col Hfix Htarget Hcol. cbn.
    rewrite Hout3 by exact Hfix. rewrite Hother2 by exact Hcol.
    apply lookup_insert_ne. congruence.
Qed.

Lemma loader_keeps_the_frame_witness :
  exists df : DataFrame,
    load_data (Some file_without_country) = Ok df
    /\ length (rows df) = length (rows file_without_country)
    /\ (has_column "产品名" df = true
        <-> has_column "产品名" file_without_country = true
            \/ "产品名" = "Target_Category" \/ "产品名" = "国家").
Proof.
  destruct (load_data_resolves file_without_country "所属类目") as [df Hdf].
  { apply category_source_find. reflexivity. }
  exists df. split; [exact Hdf|].
  destruct (loader_keeps_the_frame file_without_country df Hdf) as (Hlen & Hcols & _).
  split; [exact Hlen | apply Hcols].
Defined.

(** Lines 53-54 in closed form.  The run stops before anything is shown
    exactly when the file could not be read, has neither name of the
    category column, or has no rows; otherwise it goes on with the loaded
    frame.  No exception leaves the loader. *)
Theorem df_raw_closed_form (read : option DataFrame) :
  df_raw read
  = match read with
    | None => Stop
    | Some file =>
        if (has_column "类目" file || has_column "所属类目" file)
           && negb (match rows file with [] => true | _ => false end)
        then load_data (Some file)
        else Stop
    end.
Proof.
  unfold df_raw. destruct read as [file|]; [|reflexivity].
  destruct (load_data (Some file)) as [df| |] eqn:H.
  - pose proof (load_data_columns file df "Target_Category" H) as Hcol.
    rewrite String.eqb_refl, orb_true_r in Hcol.
    destruct (load_data_rows file df H) as (src & g & Hsrc & Hrows & _).
    assert (Hsource : has_column "类目" file || has_column "所属类目" file = true).
    { destruct Hsrc as [H1|H1 H2]; rewrite ?H1, ?H2; reflexivity. }
    rewrite Hsource. cbn [andb mbind result_bind].
    unfold empty. rewrite Hrows.
    unfold has_column in Hcol.
    destruct (columns df) as [|c cs]; [discriminate|].
    destruct (rows file); reflexivity.
  - unfold load_data in H.
    destruct (has_column "类目" file); [discriminate|].
    destruct (has_column "所属类目" file); discriminate.
  - unfold load_data in H.
    destruct (has_column "类目" file); [discriminate|].
    destruct (has_column "所属类目" file); [discriminate|]. reflexivity.
Qed.

(* ================================================================== *)
(** ** When the Aggregator returns *)

Lemma traverse_total {A B} (f : A -> result B) (l : list A) :
  (forall x, In x l -> exists y, f x = Ok y) -> exists l', traverse f l = Ok l'.
Proof.
  induction l as [|x l IH]; intros H; [exists []; reflexivity|].
  destruct (H x (or_introl eq_refl)) as [y Hy].
  destruct IH as [l' Hl']. { intros x' Hx'. apply H. right. exact Hx'. }
  exists (y :: l'). cbn. rewrite Hy. cbn. rewrite Hl'. reflexivity.
Qed.

Lemma keyed_total (col : string) (rs : list (gmap string cell)) :
  (forall r, In r rs -> exists q, num_at col r = Ok q) ->
  exists ks, keyed col rs = Ok ks.
Proof.
  intros H. apply traverse_total. intros r Hr.
  destruct (H r Hr) as [q ->]. eexists. reflexivity.
Qed.

Lemma sum_col_Ok (col : string) (rs : list (gmap string cell)) :
  (forall r, In r rs -> exists q, num_at col r = Ok q) ->
  exists q, sum_col col rs = Ok q.
Proof.
  intros H. unfold sum_col. rewrite (nums_total col rs H).
  eexists. reflexivity.
Qed.

Lemma sort_rows_total (col : string) (asc : bool) (rs : list (gmap string cell)) :
  (forall r, In r rs -> exists q, num_at col r = Ok q) ->
  exists out, sort_rows col asc rs = Ok out.
Proof.
  intros H. destruct (keyed_total col rs H) as [ks Hks].
  unfold sort_rows. rewrite Hks. eexists. reflexivity.
Qed.

Lemma get_top10_sum_total (g : list (gmap string cell)) :
  (forall r, In r g -> exists q, num_at "销量数字" r = Ok q) ->
  exists t, get_top10_sum g = Ok t.
Proof.
  intros H. destruct (keyed_total _ g H) as [ks Hks].
  unfold get_top10_sum, nlargest. rewrite Hks. cbn [mbind result_bind].
  apply sum_col_Ok. intros r Hr. apply H.
  destruct (keyed_spec _ _ _ Hks) as [<- _].
  apply list_elem_of_In, list_elem_of_fmap in Hr as (kr & -> & Hkr).
  apply list_elem_of_In, list_elem_of_fmap. exists kr. split; [reflexivity|].
  apply list_elem_of_In, (Permutation_in _ (sort_values_perm fst false ks)).
  apply list_elem_of_In. apply elem_of_take in Hkr as (i & Hi & _).
  eapply list_elem_of_lookup_2, Hi.
Qed.

Lemma base_stats_total (df : DataFrame) :
  has_column "Target_Category" df = true ->
  has_column "产品名" df = true ->
  has_column "销量数字" df = true ->
  has_column "评论数" df = true ->
  (forall r, In r (rows df) -> exists q, num_at "销量数字" r = Ok q) ->
  (forall r, In r (rows df) -> exists q, num_at "评论数" r = Ok q) ->
  exists base, base_stats df = Ok base.
Proof.
  intros Hcat Hname Hsales Hreviews Hs Hr.
  unfold base_stats, groupby.
  rewrite Hcat, Hname, Hsales, Hreviews. cbn [mbind result_bind andb].
  apply traverse_total. intros kg Hkg.
  apply list_elem_of_In, list_elem_of_fmap in Hkg as (k & -> & _).
  cbv beta. cbn [fst snd].
  destruct (sum_col_Ok "销量数字" (group_of "Target_Category" k (rows df)))
    as [s ->]. { intros r Hin. eapply Hs, group_of_In, Hin. }
  destruct (sum_col_Ok "评论数" (group_of "Target_Category" k (rows df)))
    as [v ->]. { intros r Hin. eapply Hr, group_of_In, Hin. }
  eexists. reflexivity.
Qed.

Lemma top10_stats_total (df : DataFrame) :
  has_column "Target_Category" df = true ->
  group_keys "Target_Category" (rows df) <> [] ->
  (forall r, In r (rows df) -> exists q, num_at "销量数字" r = Ok q) ->
  exists top, top10_stats df = Ok top.
Proof.
  intros Hcat Hkeys Hs. unfold top10_stats, groupby.
  rewrite Hcat. cbn [mbind result_bind].
  destruct (_ <$> group_keys _ _) as [|kg gs] eqn:E.
  { apply fmap_nil_inv in E. contradiction. }
  rewrite <- E. clear E kg gs.
  apply traverse_total. intros kg Hkg.
  apply list_elem_of_In, list_elem_of_fmap in Hkg as (k & -> & _).
  cbv beta. cbn [fst snd].
  destruct (get_top10_sum_total (group_of "Target_Category" k (rows df)))
    as [t ->]. { intros r Hin. eapply Hs, group_of_In, Hin. }
  eexists. reflexivity.
Qed.

(** Without a group line 105 is where the Aggregator ends. *)
Lemma category_stats_no_group (df : DataFrame) :
  has_column "Target_Category" df = true ->
  has_column "产品名" df = true ->
  has_column "销量数字" df = true ->
  has_column "评论数" df = true ->
  group_keys "Target_Category" (rows df) = [] ->
  category_stats df = Raise TypeError.
Proof.
  intros Hcat Hname Hsales Hreviews Hkeys.
  unfold category_stats, base_stats, top10_stats, groupby.
  rewrite Hcat, Hname, Hsales, Hreviews, Hkeys. reflexivity.
Qed.

(** With its columns in place, a group to work on and numbers in the two
    columns it adds up, the Aggregator returns its summaries. *)
Lemma category_stats_total (df : DataFrame) :
  has_column "Target_Category" df = true ->
  has_column "产品名" df = true ->
  has_column "销量数字" df = true ->
  has_column "评论数" df = true ->
  group_keys "Target_Category" (rows df) <> [] ->
  (forall r, In r (rows df) -> exists q, num_at "销量数字" r = Ok q) ->
  (forall r, In r (rows df) -> exists q, num_at "评论数" r = Ok q) ->
  exists stats, category_stats df = Ok stats.
Proof.
  intros Hcat Hname Hsales Hreviews Hkeys Hs Hr.
  destruct (base_stats_total df Hcat Hname Hsales Hreviews Hs Hr) as [base Hbase].
  destruct (top10_stats_total df Hcat Hkeys Hs) as [top Htop].
  unfold category_stats. rewrite Hbase, Htop. eexists. reflexivity.
Qed.

(** There is a group exactly when some row has a key. *)
Lemma group_keys_nil (col : string) (rs : list (gmap string cell)) :
  group_keys col rs = []
  <-> existsb (fun r => notnull (cell_at col r)) rs = false.
Proof.
  split.
  - intros Hnil. destruct (existsb _ rs) eqn:E; [|reflexivity].
    apply existsb_exists in E as (r & Hr & Hnotnull).
    destruct (group_keys_cover col rs r Hr) as (k & Hk & _).
    + intros Hnull. rewrite Hnull in Hnotnull. discriminate.
    + rewrite Hnil in Hk. destruct Hk.
  - intros Hnone. destruct (group_keys col rs) as [|k ks] eqn:E; [reflexivity|].
    destruct (group_keys_In col rs k) as (Hk & r & Hr & Hcell).
    { rewrite E. left. reflexivity. }
    assert (Hsome : existsb (fun r => notnull (cell_at col r)) rs = true).
    { apply existsb_exists. exists r. split; [exact Hr|].
      rewrite Hcell. destruct k; [contradiction | reflexivity..]. }
    congruence.
Qed.

Lemma df_raw_load_data (file raw : DataFrame) :
  df_raw (Some file) = Ok raw -> load_data (Some file) = Ok raw.
Proof.
  unfold df_raw. intros H. inv_bind H.
  destruct (empty a); [discriminate|]. congruence.
Qed.

(** What reaches the Aggregator of a column the loader fixed: the column,
    and a number in every row. *)
Lemma selected_rows_are_numbers (file raw : DataFrame) (picked : option string)
    (df : DataFrame) (col : string) :
  df_raw (Some file) = Ok raw ->
  select_region raw picked = Ok df ->
  In col cols_to_fix -> has_column col file = true ->
  has_column col df = true
  /\ forall r, In r (rows df) -> exists q, num_at col r = Ok q.
Proof.
  intros Hraw Hsel Hfix Hcol. apply df_raw_load_data in Hraw.
  destruct (select_region_spec raw picked df Hsel) as (_ & v & _ & _ & _ & ->).
  split.
  - change (has_column col raw = true).
    rewrite (load_data_columns file raw col Hraw), Hcol. reflexivity.
  - intros r Hr. apply region_filter_In in Hr as [Hr _].
    destruct (load_data_rows file raw Hraw) as (_ & g & _ & Hrows & _ & _ & _ & Hnum).
    rewrite Hrows in Hr.
    apply list_elem_of_In, list_elem_of_fmap in Hr as (r0 & -> & _).
    unfold num_at. rewrite (Hnum col Hfix Hcol r0). eexists. reflexivity.
Qed.

(** On a file that has the product name, the sales and the reviews, the
    Aggregator does not fail on what the cells of the file hold, whatever
    their texts: after a successful country selection it returns its
    summaries, at least one, when some selected row has a category, and it
    ends with the [TypeError] of line 105 when none has.  With the rank in
    the file as well, line 205 returns its rows for every category. *)
Theorem complete_file_is_aggregated
    (file raw : DataFrame) (picked : option string) (df : DataFrame) :
  has_column "产品名" file = true ->
  has_column "销量数字" file = true ->
  has_column "评论数" file = true ->
  df_raw (Some file) = Ok raw ->
  select_region raw picked = Ok df ->
  (if existsb (fun r => notnull (cell_at "Target_Category" r)) (rows df)
   then exists stats, category_stats df = Ok stats /\ stats <> []
   else category_stats df = Raise TypeError)
  /\ (has_column "排名" file = true ->
      forall current_cat, exists rs, subset df current_cat = Ok rs).
Proof.
  intros Hname Hsales Hreviews Hraw Hsel.
  destruct (selected_rows_are_numbers file raw _ df "销量数字" Hraw Hsel)
    as [Hcs Hns]; [cbn; tauto | exact Hsales |].
  destruct (selected_rows_are_numbers file raw _ df "评论数" Hraw Hsel)
    as [Hcr Hnr]; [cbn; tauto | exact Hreviews |].
  assert (Hcols : forall col, has_column col df = has_column col raw).
  { destruct (select_region_spec raw _ df Hsel) as (_ & v & _ & _ & _ & ->).
    reflexivity. }
  assert (Hcat : has_column "Target_Category" df = true).
  { rewrite Hcols, (load_data_columns file raw _ (df_raw_load_data _ _ Hraw)).
    apply orb_true_iff. left. apply orb_true_iff. right. reflexivity. }
  assert (Hcn : has_column "产品名" df = true).
  { rewrite Hcols, (load_data_columns file raw _ (df_raw_load_data _ _ Hraw)), Hname.
    reflexivity. }
  split.
  - destruct (existsb _ (rows df)) eqn:E.
    + assert (Hkeys : group_keys "Target_Category" (rows df) <> []).
      { intros Hnil. apply group_keys_nil in Hnil. congruence. }
      destruct (category_stats_total df Hcat Hcn Hcs Hcr Hkeys Hns Hnr)
        as [stats Hstats].
      exists stats. split; [exact Hstats|].
      eapply category_stats_nonempty, Hstats.
    + apply category_stats_no_group; try assumption.
      apply group_keys_nil, E.
  - intros Hrank cur.
    destruct (selected_rows_are_numbers file raw _ df "排名" Hraw Hsel)
      as [_ Hnk]; [cbn; tauto | exact Hrank |].
    unfold subset. apply sort_rows_total.
    intros r Hr. apply Hnk. apply List.filter_In in Hr. tauto.
Qed.

Lemma complete_file_is_aggregated_witness :
  (exists stats,
     category_stats (region_filter (loaded toys_file) "阿联酋") = Ok stats
     /\ stats <> [])
  /\ (exists rs,
        subset (region_filter (loaded toys_file) "阿联酋") (Str "Toys") = Ok rs)
  /\ category_stats (region_filter (loaded uncategorised_file) "阿联酋")
     = Raise TypeError.
Proof.
  destruct (complete_file_is_aggregated toys_file (loaded toys_file) (Some "UAE")
              (region_filter (loaded toys_file) "阿联酋")
              eq_refl eq_refl eq_refl)
    as [Hstats Hsubset].
  { apply is_Ok_from_Ok. vm_compute. reflexivity. }
  { vm_compute. reflexivity. }
  destruct (complete_file_is_aggregated uncategorised_file
              (loaded uncategorised_file) (Some "UAE")
              (region_filter (loaded uncategorised_file) "阿联酋")
              eq_refl eq_refl eq_refl)
    as [Hnone _].
  { apply is_Ok_from_Ok. vm_compute. reflexivity. }
  { vm_compute. reflexivity. }
  assert (E : existsb (fun r => notnull (cell_at "Target_Category" r))
                (rows (region_filter (loaded toys_file) "阿联酋")) = true)
    by (vm_compute; reflexivity).
  assert (E' : existsb (fun r => notnull (cell_at "Target_Category" r))
                 (rows (region_filter (loaded uncategorised_file) "阿联酋")) = false)
    by (vm_compute; reflexivity).
  rewrite E in Hstats. rewrite E' in Hnone.
  split; [exact Hstats|]. split; [apply Hsubset; reflexivity | exact Hnone].
Defined.

(* ================================================================== *)
(** ** The empty row set *)




(* ================================================================== *)
(** ** The address of a picture *)

Lemma string_app_cancel (u a b : string) : u ++ a = u ++ b -> a = b.
Proof.
  induction u as [|c u IH]; intros H; [exact H|].
  change (String c (u ++ a) = String c (u ++ b)) in H.
  injection H as H. apply IH, H.
Qed.

Lemma prefix_app (u a : string) : String.prefix u (u ++ a) = true.
Proof.
  induction u as [|c u IH]; [destruct a; reflexivity|].
  change (String.prefix (String c u) (String c (u ++ a)) = true).
  cbn [String.prefix]. destruct (ascii_dec c c) as [_|Hne]; [exact IH | congruence].
Qed.

Lemma has_char_app (ch : ascii) (u a : string) :
  has_char ch (u ++ a) = has_char ch u || has_char ch a.
Proof.
  induction u as [|c u IH]; [reflexivity|].
  change (has_char ch (String c (u ++ a)) = has_char ch (String c u) || has_char ch a).
  cbn [has_char]. rewrite IH. apply orb_assoc.
Qed.

(** A picture is shown exactly for a link that starts with "http".  The
    address requested starts with the link as the file has it and carries a
    query; and the address changes with every click: two runs whose
    [scroll_trigger_id] differ, one of them after a click, never request the
    same address for a link, so a picture cached before the click is not
    reused. *)
Theorem a_click_changes_every_picture_address (raw_url : string) (t : Z) :
  (String.prefix "http" raw_url = true <-> exists url, refresh_url raw_url t = Some url)
  /\ forall url,
       refresh_url raw_url t = Some url ->
       String.prefix raw_url url = true
       /\ has_char "?" url = true
       /\ forall t' : Z, (0 < t)%Z -> t' <> t -> refresh_url raw_url t' <> Some url.
Proof.
  unfold refresh_url. split.
  - destruct (String.prefix "http" raw_url) eqn:E.
    + destruct raw_url as [|c u]; [discriminate|]. cbn [String.eqb negb andb].
      split; [eauto | reflexivity].
    + rewrite andb_false_r. split; [discriminate | intros [url H]; discriminate].
  - intros url H.
    destruct (negb (raw_url =? "")%string && String.prefix "http" raw_url);
      [|discriminate].
    injection H as <-. split; [apply prefix_app|]. split.
    + rewrite has_char_app. destruct (has_char "?" raw_url); reflexivity.
    + intros t' Ht Hne H'. injection H' as H'.
      apply string_app_cancel, string_app_cancel, string_app_cancel in H'.
      apply pretty_Z_inj in H'.
      destruct (0 <? t)%Z eqn:E; [|apply Z.ltb_ge in E; lia].
      destruct (0 <? t')%Z eqn:E'; [congruence|]. lia.
Qed.

Lemma a_click_changes_every_picture_address_witness :
  refresh_url "http://img/kite.jpg" 0 <> Some "http://img/kite.jpg?v=1730000000".
Proof.
  destruct (a_click_changes_every_picture_address "http://img/kite.jpg" 1730000000)
    as [_ H].
  destruct (H "http://img/kite.jpg?v=1730000000") as (_ & _ & Hother).
  - vm_compute. reflexivity.
  - apply Hother; lia.
Defined.
